(** * Plateful: the food-donation chatbot of [main.py]

    A shallow embedding of [find_recipients], [log_donation_request] and
    [FoodDonationChatbot.process_message], and the properties of the
    conversation flow that hold of them.

    Conventions of the embedding.
    - A Python [str] is a [string] holding its UTF-8 encoding, one [ascii]
      per byte.  White space ([str.strip], the class [\s]) is Unicode white
      space, read off the encoded bytes; [str.lower] is exact on the ASCII
      letters and leaves every other byte alone, which does not change the
      comparisons the program makes on lowered text: these are with ASCII
      words, and no other character lowers to a text containing one of them.
    - A Python dict used as a map ([conversation_context]) is a [gmap] with
      string keys; a dict built from a literal with fixed keys is a record
      whose fields are the keys, an absent key being [None].
    - [json.dumps] followed by [json.loads] is the identity on the values
      exchanged here, so a tool's reply is modelled by the dict it dumps.
    - A call into a library (Google Maps, gspread, oauth2client) is an oracle
      of the environment that returns or raises.  A tool is called directly:
      [tool.invoke(args)] is the call of the decorated function, without the
      check of the arguments against the annotations, which the strings
      passed in a conversation satisfy.
    - [time.sleep] has no effect on the values computed and is left out. *)

From Stdlib Require Import Ascii String List NArith Lia Wf_nat.
From stdpp Require Import base option list strings gmap fin_maps pretty.

(** ** Python text primitives *)

Module Text.

Definition code (c : ascii) : N := N_of_ascii c.

(** White space of one byte: TAB, LF, VT, FF, CR, FS, GS, RS, US and the
    space. *)
Definition isspace (c : ascii) : bool :=
  let n := code c in
  ((9 <=? n) && (n <=? 13) || (28 <=? n) && (n <=? 32))%N.

(** White space of two bytes: U+0085 (C2 85) and U+00A0 (C2 A0). *)
Definition white2 (c d : ascii) : bool :=
  ((code c =? 194) && ((code d =? 133) || (code d =? 160)))%N.

(** White space of three bytes: U+1680 (E1 9A 80), U+2000 to U+200A
    (E2 80 80 to 8A), U+2028, U+2029 and U+202F (E2 80 A8, A9, AF), U+205F
    (E2 81 9F) and U+3000 (E3 80 80). *)
Definition white3 (c d e : ascii) : bool :=
  ((code c =? 225) && (code d =? 154) && (code e =? 128)
   || (code c =? 226) && (code d =? 128)
      && ((128 <=? code e) && (code e <=? 138)
          || (code e =? 168) || (code e =? 169) || (code e =? 175))
   || (code c =? 226) && (code d =? 129) && (code e =? 159)
   || (code c =? 227) && (code d =? 128) && (code e =? 128))%N.

(** [s] is one white-space character: what [str.isspace] and the class [\s]
    of [re] accept. *)
Definition is_white_char (s : string) : bool :=
  match s with
  | String c EmptyString => isspace c
  | String c (String d EmptyString) => white2 c d
  | String c (String d (String e EmptyString)) => white3 c d e
  | _ => false
  end.

(** Past one white-space character at the head of [s], if there is one. *)
Definition skip_white (s : string) : option string :=
  match s with
  | EmptyString => None
  | String c s1 =>
      if isspace c then Some s1
      else
        match s1 with
        | EmptyString => None
        | String d s2 =>
            if white2 c d then Some s2
            else
              match s2 with
              | EmptyString => None
              | String e s3 => if white3 c d e then Some s3 else None
              end
        end
  end.

Definition isupper (c : ascii) : bool :=
  let n := code c in ((65 <=? n) && (n <=? 90))%N.

Definition lower_char (c : ascii) : ascii :=
  if isupper c then ascii_of_N (code c + 32) else c.

(** [s.lower()] *)
Fixpoint lower (s : string) : string :=
  match s with
  | EmptyString => EmptyString
  | String c s' => String (lower_char c) (lower s')
  end.

(** [s.lstrip()]: white-space characters are dropped from the head. *)
Fixpoint lstrip (s : string) : string :=
  match s with
  | EmptyString => EmptyString
  | String c s1 =>
      if isspace c then lstrip s1
      else
        match s1 with
        | EmptyString => s
        | String d s2 =>
            if white2 c d then lstrip s2
            else
              match s2 with
              | EmptyString => s
              | String e s3 => if white3 c d e then lstrip s3 else s
              end
        end
  end.

(** [s.rstrip()]: going from the end, a byte that completes a white-space
    character with what is kept after it is dropped with it. *)
Fixpoint rstrip (s : string) : string :=
  match s with
  | EmptyString => EmptyString
  | String c s' =>
      let r := rstrip s' in
      if is_white_char (String c r) then EmptyString else String c r
  end.

(** [s.strip()] *)
Definition strip (s : string) : string := rstrip (lstrip s).

(** [needle in hay] on two strings. *)
Fixpoint contains (needle hay : string) : bool :=
  String.prefix needle hay
  || match hay with
     | EmptyString => false
     | String _ hay' => contains needle hay'
     end.

(** The longest run of characters other than LF at the head of [s]: what a
    greedy [.+] (without DOTALL) takes when nothing follows it. *)
Fixpoint dot_plus (s : string) : string :=
  match s with
  | EmptyString => EmptyString
  | String c s' => if (code c =? 10)%N then EmptyString else String c (dot_plus s')
  end.

Definition ci_eq (c d : ascii) : bool :=
  bool_decide (lower_char c = lower_char d).

(** Past one character that the letter [i] matches under IGNORECASE: "i",
    "I", U+0130 (C4 B0) and U+0131 (C4 B1). *)
Definition skip_i (s : string) : option string :=
  match s with
  | EmptyString => None
  | String c s1 =>
      if ci_eq c "i" then Some s1
      else
        match s1 with
        | EmptyString => None
        | String d s2 =>
            if ((code c =? 196) && ((code d =? 176) || (code d =? 177)))%N
            then Some s2 else None
        end
  end.

(** Past one character that the letter [n] matches under IGNORECASE. *)
Definition skip_n (s : string) : option string :=
  match s with
  | EmptyString => None
  | String c s1 => if ci_eq c "n" then Some s1 else None
  end.

(** An attempt of the pattern [in\s(.+)] under IGNORECASE anchored at the
    head of [s]; the result is group 1. *)
Definition match_in_here (s : string) : option string :=
  s1 ← skip_i s;
  s2 ← skip_n s1;
  tail ← skip_white s2;
  match dot_plus tail with
  | EmptyString => None
  | g => Some g
  end.

(** [re.search(r'in\s(.+)', s, re.IGNORECASE)], reduced to group 1 of the
    leftmost match. *)
Fixpoint search_in (s : string) : option string :=
  match match_in_here s with
  | Some g => Some g
  | None =>
      match s with
      | EmptyString => None
      | String _ s' => search_in s'
      end
  end.

End Text.

(** ** Python values, exceptions *)

(** The scalars that travel through the program: what the context dict
    stores, what a field of an organization holds, what a cell of a sheet row
    holds.  A number is kept as the decimal text Python prints for it. *)
Inductive pyval : Type :=
| PNone
| PBool (b : bool)
| PNum (lit : string)
| PStr (s : string).

Global Instance pyval_eq_dec : EqDecision pyval.
Proof. solve_decision. Defined.

(** Truth value of a scalar, as [if x:] takes it. *)
Definition truthy (v : pyval) : bool :=
  match v with
  | PNone => false
  | PBool b => b
  | PNum lit => negb (bool_decide (lit ∈ ["0"; "0.0"; "-0.0"]))
  | PStr s => negb (bool_decide (s = EmptyString))
  end.

(** [d.get(k)] tested by [if]: an absent key gives [None], which is false. *)
Definition truthy_get (d : gmap string pyval) (k : string) : bool :=
  from_option truthy false (d !! k).

(** [d.get(k)] as a value. *)
Definition get_or_none (d : gmap string pyval) (k : string) : pyval :=
  default PNone (d !! k).

(** [str(v)], as an f-string renders a value. *)
Definition py_str (v : pyval) : string :=
  match v with
  | PNone => "None"
  | PBool true => "True"
  | PBool false => "False"
  | PNum lit => lit
  | PStr s => s
  end.

Definition nl : string := String (ascii_of_N 10) EmptyString.

Definition tab : string := String (ascii_of_N 9) EmptyString.

(** U+00A0, the no-break space, and U+0130, the capital I with a dot. *)
Definition nbsp : string :=
  String (ascii_of_N 194) (String (ascii_of_N 160) EmptyString).

Definition dotted_I : string :=
  String (ascii_of_N 196) (String (ascii_of_N 176) EmptyString).

Inductive exn : Type :=
| FileNotFoundError (msg : string)
| KeyError (key : string)
| Exception (msg : string).

(** [str(e)] *)
Definition str_exn (e : exn) : string :=
  match e with
  | FileNotFoundError msg => msg
  | KeyError key => "'" +:+ key +:+ "'"
  | Exception msg => msg
  end.

(** The outcome of a call: a value or a raised exception. *)
Inductive result (A : Type) : Type :=
| Ok (a : A)
| Raise (e : exn).
Arguments Ok {A} a.
Arguments Raise {A} e.

Global Instance result_ret : MRet result := fun _ a => Ok a.

Global Instance result_bind : MBind result := fun _ _ k r =>
  match r with
  | Ok a => k a
  | Raise e => Raise e
  end.

(** [d[k]] on a key that a record field models: [KeyError] when absent. *)
Definition subscript {A} (key : string) (field : option A) : result A :=
  match field with
  | Some a => Ok a
  | None => Raise (KeyError key)
  end.

(** ** Organizations and the replies of the two tools *)

(** The dict that [find_recipients] builds for one place (lines 79-85): the
    five keys are always present. *)
Record organization : Type := {
  org_name : pyval;
  org_address : pyval;
  org_phone : pyval;
  org_website : pyval;
  org_rating : pyval;
}.

Module Lookup.
(** The dict dumped by [find_recipients]; a field is [None] when the key is
    absent. *)
Record reply : Type := {
  recipients : option (list organization);
  error : option string;
  api_error : option bool;
  message : option string;
}.
End Lookup.

Module Ledger.
(** The dict dumped by [log_donation_request]. *)
Record reply : Type := {
  success : option bool;
  message : option string;
  error : option string;
}.
End Ledger.

(** ** The environment of a call *)

Record LatLng : Type := { lat : string; lng : string }.

(** One entry of ['results'] of a nearby search. *)
Record place_hit : Type := { place_id : option string }.

(** The ['result'] dict of a place-details reply; every key is optional. *)
Record place_details : Type := {
  pd_name : option pyval;
  pd_vicinity : option pyval;
  pd_formatted_phone_number : option pyval;
  pd_website : option pyval;
  pd_rating : option pyval;
}.

(** A [googlemaps.Client].  [geocode] gives, for each hit, its
    ['geometry']['location']; [places_nearby] gives the ['results'] list of
    its reply ([[]] when the key is absent); [place] gives the ['result'] dict
    (no key at all when absent).  A reply that lacks a subscripted key counts
    as a raising call. *)
Record GMaps : Type := {
  geocode : string -> result (list LatLng);
  places_nearby : LatLng -> N -> string -> result (list place_hit);
  place : string -> list string -> result place_details;
}.

(** The contents of [sheet1]: its rows, each a list of cells. *)
Definition row : Type := list pyval.
Definition Sheet : Type := list row.

(** The calls made on the worksheet. *)
Inductive sheet_call : Type := GetAllValues | AppendRow | AppendRows.

Record Env : Type := {
  (** [os.environ] *)
  environ : gmap string string;
  (** [googlemaps.Client(key=...)]: the client, or the exception with which
      the constructor refuses the key *)
  Client : string -> result GMaps;
  (** truth value of the name [gspread] *)
  gspread : bool;
  (** [ServiceAccountCredentials.from_json_keyfile_name(file, scope)] *)
  from_json_keyfile_name : string -> list string -> result unit;
  (** [gspread.authorize(creds)] *)
  authorize : result unit;
  (** [client.open_by_key(id).sheet1] *)
  open_by_key : string -> result unit;
  (** what [get_all_values] returns of a sheet with the given contents *)
  sheet_values : Sheet -> list row;
  (** the exception, if any, with which a call on the worksheet fails, and
      how many of the rows given to it were written all the same *)
  sheet_fault : sheet_call -> option (exn * nat);
  (** [time.ctime()] *)
  ctime : string;
}.

(** [os.environ.get(k)] tested by [if not]: absent or empty. *)
Definition environ_get (E : Env) (k : string) : option string :=
  match environ E !! k with
  | Some EmptyString => None
  | o => o
  end.

(** ** [find_recipients] (lines 39-93) *)

Definition place_fields : list string :=
  ["name"; "vicinity"; "formatted_phone_number"; "website"; "rating"].

(** The dict appended for one place (lines 79-85). *)
Definition recipient_of (details : place_details) : organization :=
  {| org_name := default (PStr "N/A") (pd_name details);
     org_address := default (PStr "N/A") (pd_vicinity details);
     org_phone := default (PStr "Not available") (pd_formatted_phone_number details);
     org_website := default (PStr "Not available") (pd_website details);
     org_rating := default (PStr "N/A") (pd_rating details) |}.

(** The loop of lines 67-86 over the places already sliced: a place without
    an id is skipped, a raising details call ends the loop. *)
Fixpoint detailed_recipients (gmaps : GMaps) (places : list place_hit)
  : result (list organization) :=
  match places with
  | [] => mret []
  | p :: places' =>
      match place_id p with
      | None | Some EmptyString => detailed_recipients gmaps places'
      | Some pid =>
          details ← place gmaps pid place_fields;
          rest ← detailed_recipients gmaps places';
          mret (recipient_of details :: rest)
      end
  end.

(** The [try] of lines 56-93, with the client already built. *)
Definition find_with (gmaps : GMaps) (location : string) : Lookup.reply :=
  let attempt : result Lookup.reply :=
    geocode_result ← geocode gmaps location;
    match geocode_result with
    | [] =>
        mret {| Lookup.recipients := None;
                Lookup.error :=
                  Some ("Could not find coordinates for '" +:+ location +:+ "'");
                Lookup.api_error := None; Lookup.message := None |}
    | lat_lng :: _ =>
        places_result ←
          places_nearby gmaps lat_lng 8000
            "food bank OR charity OR food donation";
        detailed ← detailed_recipients gmaps (take 5 places_result);
        match detailed with
        | _ :: _ =>
            mret {| Lookup.recipients := Some detailed;
                    Lookup.error := None;
                    Lookup.api_error := None; Lookup.message := None |}
        | [] =>
            mret {| Lookup.recipients := None;
                    Lookup.error := None;
                    Lookup.api_error := None;
                    Lookup.message :=
                      Some "No organizations found via Google Places API." |}
        end
    end in
  match attempt with
  | Ok r => r
  | Raise e =>
      {| Lookup.recipients := None;
         Lookup.error := Some (str_exn e);
         Lookup.api_error := Some true; Lookup.message := None |}
  end.

(** The client is built on line 55, before the [try]: an exception of the
    constructor escapes the function. *)
Definition find_recipients (E : Env) (location : string) : result Lookup.reply :=
  match environ_get E "GOOGLE_API_KEY" with
  | None =>
      Ok {| Lookup.recipients := None;
            Lookup.error := Some "Google API key not found.";
            Lookup.api_error := None; Lookup.message := None |}
  | Some api_key =>
      gmaps ← Client E api_key;
      mret (find_with gmaps location)
  end.

(** ** [log_donation_request] (lines 96-152) *)

(** A computation on the worksheet: it may change the sheet and then return
    or raise; what was written before a raise stays written.  An append that
    returns has put its rows at the end of the sheet; an append that raises
    may have put some of them there. *)
Definition sheetM (A : Type) : Type := Sheet -> Sheet * result A.

Global Instance sheetM_ret : MRet sheetM := fun _ a sheet => (sheet, Ok a).

Global Instance sheetM_bind : MBind sheetM := fun _ _ k m sheet =>
  match m sheet with
  | (sheet', Ok a) => k a sheet'
  | (sheet', Raise e) => (sheet', Raise e)
  end.

Definition lift {A} (r : result A) : sheetM A := fun sheet => (sheet, r).

Definition get_all_values (E : Env) : sheetM (list row) := fun sheet =>
  match sheet_fault E GetAllValues with
  | Some (e, _) => (sheet, Raise e)
  | None => (sheet, Ok (sheet_values E sheet))
  end.

Definition append_row (E : Env) (r : row) : sheetM unit := fun sheet =>
  match sheet_fault E AppendRow with
  | Some (e, written) => (sheet ++ take written [r], Raise e)
  | None => (sheet ++ [r], Ok tt)
  end.

Definition append_rows (E : Env) (rs : list row) : sheetM unit := fun sheet =>
  match sheet_fault E AppendRows with
  | Some (e, written) => (sheet ++ take written rs, Raise e)
  | None => (sheet ++ rs, Ok tt)
  end.

Definition header_row : row :=
  [PStr "Donor Name"; PStr "Donor Phone"; PStr "NGO Name"; PStr "NGO Phone";
   PStr "NGO Website"; PStr "Timestamp"].

(** The loop of lines 127-136.  The keys read are always present in an
    organization, so the defaults of [org.get] are never taken. *)
Definition rows_to_add (user_name user_phone : pyval) (timestamp : string)
    (organizations : list organization) : list row :=
  map (fun org =>
         [user_name; user_phone; org_name org; org_phone org; org_website org;
          PStr timestamp])
      organizations.

Definition ledger_error (msg : string) : Ledger.reply :=
  {| Ledger.success := None; Ledger.message := None; Ledger.error := Some msg |}.

Definition sheets_scope : list string :=
  ["https://spreadsheets.google.com/feeds"; "https://www.googleapis.com/auth/drive"].

(** The body of the [try] (lines 118-146). *)
Definition log_attempt (E : Env) (spreadsheet_id : string)
    (user_name user_phone : pyval) (organizations : list organization)
  : sheetM Ledger.reply :=
  _ ← lift (from_json_keyfile_name E "service_account.json" sheets_scope);
  _ ← lift (authorize E);
  _ ← lift (open_by_key E spreadsheet_id);
  let timestamp := ctime E in
  let rows := rows_to_add user_name user_phone timestamp organizations in
  values ← get_all_values E;
  _ ← match values with
      | [] => append_row E header_row
      | _ :: _ => mret tt
      end;
  _ ← match rows with
      | _ :: _ => append_rows E rows
      | [] => mret tt
      end;
  mret {| Ledger.success := Some true;
          Ledger.message := Some "Request logged successfully in the Google Sheet.";
          Ledger.error := None |}.

Definition log_donation_request (E : Env) (user_name user_phone : pyval)
    (organizations : list organization) (sheet : Sheet) : Ledger.reply * Sheet :=
  if negb (gspread E) then
    (ledger_error "gspread library not available. Cannot log to sheet.", sheet)
  else
    match environ_get E "GOOGLE_SHEET_ID" with
    | None => (ledger_error "GOOGLE_SHEET_ID environment variable not set.", sheet)
    | Some spreadsheet_id =>
        match log_attempt E spreadsheet_id user_name user_phone organizations sheet with
        | (sheet', Ok r) => (r, sheet')
        | (sheet', Raise (FileNotFoundError _)) =>
            (ledger_error
               "service_account.json not found. Please ensure the file is in the correct directory.",
             sheet')
        | (sheet', Raise e) =>
            (ledger_error
               ("An error occurred while writing to the sheet: " +:+ str_exn e),
             sheet')
        end
    end.

(** ** [FoodDonationChatbot] (lines 156-253) *)

(** The two attributes that [process_message] reads and writes;
    [agent_executor] is set up once and never used by it. *)
Record Chatbot : Type := {
  conversation_context : gmap string pyval;
  cached_organizations : list organization;
}.

(** [__init__] *)
Definition init : Chatbot :=
  {| conversation_context := ∅; cached_organizations := [] |}.

Definition set_context (ctx : gmap string pyval) (self : Chatbot) : Chatbot :=
  {| conversation_context := ctx;
     cached_organizations := cached_organizations self |}.

Definition set_cached (orgs : list organization) (self : Chatbot) : Chatbot :=
  {| conversation_context := conversation_context self;
     cached_organizations := orgs |}.

(** The body of the loop of [format_organizations], counting from [i]. *)
Fixpoint format_from (i : nat) (orgs_data : list organization) : string :=
  match orgs_data with
  | [] => EmptyString
  | org :: rest =>
      "🏢 **" +:+ pretty i +:+ ". " +:+ py_str (org_name org) +:+ "**" +:+ nl
      +:+ "   📍 Address: " +:+ py_str (org_address org) +:+ nl
      +:+ "   📞 Phone: " +:+ py_str (org_phone org) +:+ nl
      +:+ "   🌐 Website: " +:+ py_str (org_website org) +:+ nl
      +:+ format_from (S i) rest
  end.

Definition format_organizations (orgs_data : list organization) : string :=
  match orgs_data with
  | [] => "No organizations found."
  | _ :: _ => format_from 1 orgs_data
  end.

(** What a turn does to the outside, in program order.  A tool invocation
    records its arguments and the state of the chatbot at the call. *)
Inductive event : Type :=
| Printed (text : string)
| Invoked_find_recipients (location : string) (at_call : Chatbot)
| Invoked_log_donation_request (user_name user_phone : pyval)
    (organizations : list organization) (at_call : Chatbot).

(** The result of one call of [process_message]: the returned text (or the
    exception that escapes), the chatbot and the sheet afterwards, and the
    trace of the turn. *)
Record Turn : Type := {
  reply : result string;
  after : Chatbot;
  sheet_after : Sheet;
  trace : list event;
}.

Definition msg_name_thanks : string := "Thank you. Now, what is your phone number?".
Definition msg_ask_name : string := "Great! To proceed, please provide your name.".
Definition msg_declined : string :=
  "Okay, I will not log this request. Is there anything else I can help you with?".
Definition msg_clarify : string :=
  "I can help with that! Please tell me the city you are in, for example: 'I want to donate in Delhi'.".
Definition msg_help : string :=
  "I can help you find food donation centers. Please tell me what city you're in, like 'Where can I donate food in Delhi?'".
Definition msg_not_found (reason : string) : string :=
  "I'm sorry, I couldn't find any organizations. Error: " +:+ reason.
Definition msg_found (location : string) (orgs : list organization) : string :=
  ("✅ I found these organizations in " +:+ location +:+ ":" +:+ nl +:+ nl)
  +:+ format_organizations orgs
  +:+ (nl +:+ nl +:+
       "📝 **Would you like me to log this request with these organizations for you? (yes/no)**").

(** The test of line 230 on [message_lower]. *)
Definition search_intent (message_lower : string) : bool :=
  Text.contains "find" message_lower
  || Text.contains "donate" message_lower
  || Text.contains "where can" message_lower.

(** Lines 198-219: the answer to the phone question. *)
Definition answer_phone (E : Env) (message : string) (self : Chatbot) (sheet : Sheet)
  : Turn :=
  let ctx1 :=
    <["awaiting_user_phone" := PBool false]>
      (<["user_phone" := PStr message]> (conversation_context self)) in
  let self1 := set_context ctx1 self in
  let user_name := get_or_none ctx1 "user_name" in
  let user_phone := get_or_none ctx1 "user_phone" in
  let orgs := cached_organizations self1 in
  let '(log_result, sheet') := log_donation_request E user_name user_phone orgs sheet in
  let self2 := set_context ∅ self1 in
  {| reply :=
       if default false (Ledger.success log_result) then
         m ← subscript "message" (Ledger.message log_result); mret ("✅ " +:+ m)
       else
         e ← subscript "error" (Ledger.error log_result); mret ("❌ Error: " +:+ e);
     after := self2;
     sheet_after := sheet';
     trace :=
       [Printed (nl +:+ "⚙️ Logging your request to Google Sheets...");
        Invoked_log_donation_request user_name user_phone orgs self1] |}.

(** Lines 230-251: a search. *)
Definition search (E : Env) (message : string) (self : Chatbot) (sheet : Sheet)
  : Turn :=
  let self1 := set_cached [] self in
  let printed := Printed (nl +:+ "🔄 Searching for organizations...") in
  match Text.search_in message with
  | None =>
      {| reply := Ok msg_clarify; after := self1; sheet_after := sheet;
         trace := [printed] |}
  | Some group1 =>
      let location := Text.strip group1 in
      let called := Invoked_find_recipients location self1 in
      match find_recipients E location with
      | Raise e =>
          {| reply := Raise e; after := self1; sheet_after := sheet;
             trace := [printed; called] |}
      | Ok result_data =>
          match Lookup.recipients result_data with
          | Some ((_ :: _) as found) =>
              let self2 := set_cached found self1 in
              let response := msg_found location (cached_organizations self2) in
              let self3 :=
                set_context
                  (<["awaiting_log_confirmation" := PBool true]>
                     (conversation_context self2))
                  self2 in
              {| reply := Ok response; after := self3; sheet_after := sheet;
                 trace := [printed; called] |}
          | _ =>
              {| reply :=
                   Ok (msg_not_found
                         (default "Unknown issue" (Lookup.error result_data)));
                 after := self1; sheet_after := sheet;
                 trace := [printed; called] |}
          end
      end
  end.

Definition process_message (E : Env) (message : string) (self : Chatbot)
    (sheet : Sheet) : Turn :=
  let message_lower := Text.strip (Text.lower message) in
  let ctx := conversation_context self in
  if truthy_get ctx "awaiting_user_name" then
    let ctx1 :=
      <["awaiting_user_phone" := PBool true]>
        (<["awaiting_user_name" := PBool false]>
           (<["user_name" := PStr message]> ctx)) in
    {| reply := Ok msg_name_thanks; after := set_context ctx1 self;
       sheet_after := sheet; trace := [] |}
  else if truthy_get ctx "awaiting_user_phone" then
    answer_phone E message self sheet
  else if truthy_get ctx "awaiting_log_confirmation" then
    if bool_decide (message_lower = "yes") then
      let ctx1 :=
        <["awaiting_user_name" := PBool true]>
          (<["awaiting_log_confirmation" := PBool false]> ctx) in
      {| reply := Ok msg_ask_name; after := set_context ctx1 self;
         sheet_after := sheet; trace := [] |}
    else
      {| reply := Ok msg_declined; after := set_context ∅ self;
         sheet_after := sheet; trace := [] |}
  else if search_intent message_lower then
    search E message self sheet
  else
    {| reply := Ok msg_help; after := self; sheet_after := sheet; trace := [] |}.

(** ** The conversation state machine read off the context *)

Inductive PendingStep : Type :=
| NONE
| AWAITING_LOG_CONFIRMATION
| AWAITING_NAME
| AWAITING_PHONE.

(** The step whose answer the next message is taken to be: the flags are
    tested in the order of lines 192, 198 and 221. *)
Definition pendingStep (self : Chatbot) : PendingStep :=
  let ctx := conversation_context self in
  if truthy_get ctx "awaiting_user_name" then AWAITING_NAME
  else if truthy_get ctx "awaiting_user_phone" then AWAITING_PHONE
  else if truthy_get ctx "awaiting_log_confirmation" then AWAITING_LOG_CONFIRMATION
  else NONE.

Definition flag_count (self : Chatbot) : nat :=
  let ctx := conversation_context self in
  Nat.b2n (truthy_get ctx "awaiting_log_confirmation")
  + Nat.b2n (truthy_get ctx "awaiting_user_name")
  + Nat.b2n (truthy_get ctx "awaiting_user_phone").

Definition is_set (self : Chatbot) (key : string) : Prop :=
  is_Some (conversation_context self !! key).

Definition is_tool_call (ev : event) : bool :=
  match ev with
  | Printed _ => false
  | _ => true
  end.

(** The tool invocations of a trace. *)
Definition tool_calls (tr : list event) : list event := filter is_tool_call tr.

(** A conversation: the states met when messages are routed one after the
    other, each in an environment of its own. *)
Inductive reachable : Chatbot -> Sheet -> Prop :=
| reach_init sheet : reachable init sheet
| reach_step self sheet E message :
    reachable self sheet ->
    reachable (after (process_message E message self sheet))
              (sheet_after (process_message E message self sheet)).

(** ** Sample environments and states, used to run the model *)

Module Samples.

Definition delhi : LatLng := {| lat := "28.6139"; lng := "77.2090" |}.

Definition details_of (pid : string) : place_details :=
  {| pd_name := Some (PStr ("Food Bank " +:+ pid));
     pd_vicinity := Some (PStr "Connaught Place");
     pd_formatted_phone_number := None;
     pd_website := Some (PStr ("https://example.org/" +:+ pid));
     pd_rating := Some (PNum "4.5") |}.

(** A Maps client that finds two places, one entry having no id. *)
Definition two_places : GMaps :=
  {| geocode := fun _ => Ok [delhi];
     places_nearby := fun _ _ _ =>
       Ok [ {| place_id := Some "p1" |}; {| place_id := None |};
            {| place_id := Some "p2" |} ];
     place := fun pid _ => Ok (details_of pid) |}.


Definition configured : gmap string string :=
  <["GOOGLE_SHEET_ID" := "sheet-1"]> (<["GOOGLE_API_KEY" := "key-1"]> ∅).

(** Everything configured, every call returns. *)
Definition online : Env :=
  {| environ := configured;
     Client := fun _ => Ok two_places;
     gspread := true;
     from_json_keyfile_name := fun _ _ => Ok tt;
     authorize := Ok tt;
     open_by_key := fun _ => Ok tt;
     sheet_values := fun sheet => sheet;
     sheet_fault := fun _ => None;
     ctime := "Tue Nov  3 12:00:00 2026" |}.


(** As [online], without the key file of the service account. *)
Definition no_keyfile : Env :=
  {| environ := configured;
     Client := fun _ => Ok two_places;
     gspread := true;
     from_json_keyfile_name := fun file _ =>
       Raise (FileNotFoundError ("[Errno 2] No such file or directory: '" +:+ file +:+ "'"));
     authorize := Ok tt;
     open_by_key := fun _ => Ok tt;
     sheet_values := fun sheet => sheet;
     sheet_fault := fun _ => None;
     ctime := "Tue Nov  3 12:00:00 2026" |}.

(** Nothing configured. *)
Definition unconfigured : Env :=
  {| environ := ∅;
     Client := fun _ => Ok two_places;
     gspread := true;
     from_json_keyfile_name := fun _ _ => Ok tt;
     authorize := Ok tt;
     open_by_key := fun _ => Ok tt;
     sheet_values := fun sheet => sheet;
     sheet_fault := fun _ => None;
     ctime := "Tue Nov  3 12:00:00 2026" |}.

Definition org1 : organization := recipient_of (details_of "p1").
Definition org2 : organization := recipient_of (details_of "p2").

(** The chatbot after a search that found [org1] and [org2]. *)
Definition asked : Chatbot :=
  {| conversation_context := {[ "awaiting_log_confirmation" := PBool true ]};
     cached_organizations := [org1; org2] |}.

(** The chatbot waiting for the phone number of Asha. *)
Definition named : Chatbot :=
  {| conversation_context :=
       <["awaiting_user_phone" := PBool true]>
         (<["awaiting_user_name" := PBool false]>
            (<["user_name" := PStr "Asha"]>
               (<["awaiting_log_confirmation" := PBool false]> ∅)));
     cached_organizations := [org1; org2] |}.

(** As [online], with a worksheet that refuses [append_rows]. *)
Definition append_fails : Env :=
  {| environ := configured;
     Client := fun _ => Ok two_places;
     gspread := true;
     from_json_keyfile_name := fun _ _ => Ok tt;
     authorize := Ok tt;
     open_by_key := fun _ => Ok tt;
     sheet_values := fun sheet => sheet;
     sheet_fault := fun c =>
       match c with
       | AppendRows => Some (Exception "APIError: [429]: Quota exceeded", 0)
       | _ => None
       end;
     ctime := "Tue Nov  3 12:00:00 2026" |}.

(** A Maps client whose details call fails on the place "p2". *)
Definition p2_fails : GMaps :=
  {| geocode := fun _ => Ok [delhi];
     places_nearby := fun _ _ _ =>
       Ok [ {| place_id := Some "p1" |}; {| place_id := Some "p2" |} ];
     place := fun pid _ =>
       if bool_decide (pid = "p2") then Raise (Exception "REQUEST_DENIED")
       else Ok (details_of pid) |}.

(** As [online], with that client. *)
Definition flaky : Env :=
  {| environ := configured;
     Client := fun _ => Ok p2_fails;
     gspread := true;
     from_json_keyfile_name := fun _ _ => Ok tt;
     authorize := Ok tt;
     open_by_key := fun _ => Ok tt;
     sheet_values := fun sheet => sheet;
     sheet_fault := fun _ => None;
     ctime := "Tue Nov  3 12:00:00 2026" |}.

(** As [online], with a key that the Maps client refuses. *)
Definition refused_key : Env :=
  {| environ := configured;
     Client := fun _ => Raise (Exception "Invalid API key provided.");
     gspread := true;
     from_json_keyfile_name := fun _ _ => Ok tt;
     authorize := Ok tt;
     open_by_key := fun _ => Ok tt;
     sheet_values := fun sheet => sheet;
     sheet_fault := fun _ => None;
     ctime := "Tue Nov  3 12:00:00 2026" |}.

(** As [online], with a worksheet that reads as one empty row when it has
    no contents, and that writes one of the rows of a failing [append_rows]. *)
Definition quirky : Env :=
  {| environ := configured;
     Client := fun _ => Ok two_places;
     gspread := true;
     from_json_keyfile_name := fun _ _ => Ok tt;
     authorize := Ok tt;
     open_by_key := fun _ => Ok tt;
     sheet_values := fun sheet =>
       match sheet with
       | [] => [[]]
       | _ => sheet
       end;
     sheet_fault := fun c =>
       match c with
       | AppendRows => Some (Exception "APIError: [500]: Internal error", 1)
       | _ => None
       end;
     ctime := "Tue Nov  3 12:00:00 2026" |}.

(** The chatbot at rest with the cache of an earlier search. *)
Definition rested : Chatbot :=
  {| conversation_context := ∅; cached_organizations := [org1; org2] |}.

End Samples.

(** ** Vocabulary of the statements *)

(** The ledger can be written: the library is there, the sheet id is
    configured, the credentials load, authorization and opening succeed, and
    no call on the worksheet fails. *)
Definition ledger_ready (E : Env) : Prop :=
  gspread E = true
  /\ (exists spreadsheet_id,
        environ_get E "GOOGLE_SHEET_ID" = Some spreadsheet_id
        /\ open_by_key E spreadsheet_id = Ok tt)
  /\ from_json_keyfile_name E "service_account.json" sheets_scope = Ok tt
  /\ authorize E = Ok tt
  /\ forall c, sheet_fault E c = None.

Definition ledger_success : Ledger.reply :=
  {| Ledger.success := Some true;
     Ledger.message := Some "Request logged successfully in the Google Sheet.";
     Ledger.error := None |}.

(** The header that a call writes first when the read of the sheet returned
    no rows. *)
Definition header_if_empty (values : list row) : list row :=
  match values with
  | [] => [header_row]
  | _ :: _ => []
  end.




(** A reply that gives the router nothing to cache: no ["recipients"] key, or
    an empty list under it. *)
Definition no_recipients (r : Lookup.reply) : Prop :=
  Lookup.recipients r = None \/ Lookup.recipients r = Some [].

(** [kw] occurs in [message] when case is ignored. *)
Definition occurs_ci (kw message : string) : Prop :=
  exists pre mid post,
    message = pre +:+ mid +:+ post /\ Text.lower mid = kw.

(** The message has a search keyword, case ignored. *)
Definition has_keyword (message : string) : Prop :=
  occurs_ci "find" message \/ occurs_ci "donate" message
  \/ occurs_ci "where can" message.

(** What every turn preserves: at most one flag is on, no phone number is
    kept between turns, and a name is stored while the phone is awaited. *)
Definition flow_invariant (self : Chatbot) : Prop :=
  flag_count self <= 1
  /\ ~ is_set self "user_phone"
  /\ (truthy_get (conversation_context self) "awaiting_user_phone" = true ->
      is_set self "user_name").

(** The first byte, the last byte of [s] is not a white-space character of
    one byte. *)
Definition starts_nonspace (s : string) : bool :=
  match s with
  | EmptyString => false
  | String c _ => negb (Text.isspace c)
  end.

Fixpoint ends_nonspace (s : string) : bool :=
  match s with
  | EmptyString => false
  | String c EmptyString => negb (Text.isspace c)
  | String _ s' => ends_nonspace s'
  end.

(** ** [run_chat] and [main] (lines 255-295) *)



(** [print(text)] on the standard output. *)
Definition println (text : string) : string := text +:+ nl.

(** What the [print] calls of a turn write, in order. *)
Fixpoint printed_of (tr : list event) : string :=
  match tr with
  | [] => EmptyString
  | Printed text :: tr' => println text +:+ printed_of tr'
  | _ :: tr' => printed_of tr'
  end.

(** What happens at the prompt: the operator types a line, presses Ctrl-C
    (a [KeyboardInterrupt] raised by [input]), or the input has ended (an
    [EOFError] raised by [input]).  A list that runs out leaves the loop
    waiting at the prompt. *)
Inductive operator : Type :=
| Line (typed : string)
| Interrupt
| EndOfInput.

(** [str(e)] of the [EOFError] of [input]. *)
Definition eof_text : string := "EOF when reading a line".

Definition exit_words : list string := ["quit"; "exit"; "bye"].

Definition prompt : string := nl +:+ "💬 You: ".

(** A chat session so far: the chatbot and the sheet, what was written on
    the standard output, the messages handed to [process_message], and
    whether the loop was left. *)
Record Session : Type := {
  final : Chatbot;
  final_sheet : Sheet;
  stdout : string;
  routed : list string;
  ended : bool;
}.

(** The [while True] of lines 264-280, run on the actions of the operator,
    each with the environment in force when it is handled. *)
Fixpoint chat_loop (inputs : list (Env * operator)) (self : Chatbot)
    (sheet : Sheet) : Session :=
  match inputs with
  | [] =>
      {| final := self; final_sheet := sheet; stdout := prompt; routed := [];
         ended := false |}
  | (_, Interrupt) :: _ =>
      {| final := self; final_sheet := sheet;
         stdout := prompt +:+ println (nl +:+ nl +:+ "👋 Goodbye!");
         routed := []; ended := true |}
  | (_, EndOfInput) :: rest =>
      let s := chat_loop rest (set_context ∅ self) sheet in
      {| final := final s; final_sheet := final_sheet s;
         stdout :=
           prompt
           +:+ println (nl +:+ "❌ An unexpected error occurred: " +:+ eof_text)
           +:+ stdout s;
         routed := routed s; ended := ended s |}
  | (E, Line typed) :: rest =>
      let user_input := Text.strip typed in
      if bool_decide (Text.lower user_input ∈ exit_words) then
        {| final := self; final_sheet := sheet;
           stdout := prompt +:+ println (nl +:+ "🙏 Thank you! Goodbye!");
           routed := []; ended := true |}
      else
        let t := process_message E user_input self sheet in
        let self' :=
          match reply t with
          | Ok _ => after t
          | Raise _ => set_context ∅ (after t)
          end in
        let said :=
          match reply t with
          | Ok response => println response
          | Raise e => println (nl +:+ "❌ An unexpected error occurred: " +:+ str_exn e)
          end in
        let s := chat_loop rest self' (sheet_after t) in
        {| final := final s; final_sheet := final_sheet s;
           stdout :=
             prompt +:+ (nl +:+ "🤖 Assistant: ") +:+ printed_of (trace t)
             +:+ said +:+ stdout s;
           routed := user_input :: routed s;
           ended := ended s |}
  end.





Definition warn_api_key : string :=
  "⚠️ WARNING: GOOGLE_API_KEY environment variable not set. Searches will fail.".
Definition warn_sheet_id : string :=
  "⚠️ WARNING: GOOGLE_SHEET_ID environment variable not set. Logging to sheet will fail.".
Definition warn_keyfile : string :=
  "⚠️ WARNING: 'service_account.json' not found. Logging to sheet will fail.".

(** The three checks of [main] (lines 287-292); [keyfile_exists] is
    [os.path.exists("service_account.json")]. *)
Definition startup_warnings (E : Env) (keyfile_exists : bool) : list string :=
  match environ_get E "GOOGLE_API_KEY" with
  | Some _ => []
  | None => [warn_api_key]
  end
  ++ match environ_get E "GOOGLE_SHEET_ID" with
     | Some _ => []
     | None => [warn_sheet_id]
     end
  ++ (if keyfile_exists then [] else [warn_keyfile]).


(** ** More vocabulary *)

(** [s] is made of white-space characters only. *)
Definition blank (s : string) : bool :=
  bool_decide (Text.lstrip s = EmptyString).

(** The characters that the letters of the pattern [in] match when case is
    ignored: for [i] also U+0130 (bytes C4 B0) and U+0131 (bytes C4 B1). *)
Definition letter_i (s : string) : bool :=
  bool_decide (s = "i") || bool_decide (s = "I")
  || bool_decide (s = String (ascii_of_N 196) (String (ascii_of_N 176) EmptyString))
  || bool_decide (s = String (ascii_of_N 196) (String (ascii_of_N 177) EmptyString)).

Definition letter_n (s : string) : bool :=
  bool_decide (s = "n") || bool_decide (s = "N").

(** A byte of an ASCII character that is not white space. *)
Definition plain (c : ascii) : bool :=
  (Text.code c <? 128)%N && negb (Text.isspace c).

(** A word that begins and ends with such a byte. *)
Definition starts_plain (s : string) : bool :=
  match s with
  | EmptyString => false
  | String c _ => plain c
  end.

Fixpoint ends_plain (s : string) : bool :=
  match s with
  | EmptyString => false
  | String c EmptyString => plain c
  | String _ s' => ends_plain s'
  end.

(** No such byte in [s]. *)
Fixpoint no_plain (s : string) : bool :=
  match s with
  | EmptyString => true
  | String c s' => negb (plain c) && no_plain s'
  end.

(** No white-space character of one byte at either end of [s]; that [strip]
    has nothing at all to remove is [Text.strip s = s]. *)
Definition trimmed (s : string) : bool :=
  match s with
  | EmptyString => true
  | _ => starts_nonspace s && ends_nonspace s
  end.

(** No line feed in [s]. *)
Fixpoint one_line (s : string) : bool :=
  match s with
  | EmptyString => true
  | String c s' => negb (Text.code c =? 10)%N && one_line s'
  end.

(** The ids on which the loop of [find_recipients] asks for details. *)
Fixpoint usable_ids (places : list place_hit) : list string :=
  match places with
  | [] => []
  | p :: places' =>
      match place_id p with
      | None | Some EmptyString => usable_ids places'
      | Some pid => pid :: usable_ids places'
      end
  end.

Definition with_rating (r : pyval) (org : organization) : organization :=
  {| org_name := org_name org; org_address := org_address org;
     org_phone := org_phone org; org_website := org_website org;
     org_rating := r |}.

Definition with_address (a : pyval) (org : organization) : organization :=
  {| org_name := org_name org; org_address := a;
     org_phone := org_phone org; org_website := org_website org;
     org_rating := org_rating org |}.

(** The block that the listing shows for the organization numbered [i]. *)
Definition listing_block (i : nat) (org : organization) : string :=
  "🏢 **" +:+ pretty i +:+ ". " +:+ py_str (org_name org) +:+ "**" +:+ nl
  +:+ "   📍 Address: " +:+ py_str (org_address org) +:+ nl
  +:+ "   📞 Phone: " +:+ py_str (org_phone org) +:+ nl
  +:+ "   🌐 Website: " +:+ py_str (org_website org) +:+ nl.

(** The contexts met in a conversation. *)
Inductive flow_context : gmap string pyval -> Prop :=
| ctx_idle : flow_context ∅
| ctx_asked : flow_context (<["awaiting_log_confirmation" := PBool true]> ∅)
| ctx_confirmed :
    flow_context
      (<["awaiting_user_name" := PBool true]>
         (<["awaiting_log_confirmation" := PBool false]> ∅))
| ctx_named name :
    flow_context
      (<["awaiting_user_phone" := PBool true]>
         (<["awaiting_user_name" := PBool false]>
            (<["user_name" := PStr name]>
               (<["awaiting_log_confirmation" := PBool false]> ∅)))).

(** * Properties *)

(** ** The model at work *)

Example strip_lower_yes : Text.strip (Text.lower ("  YeS" +:+ nl)) = "yes".
Proof. reflexivity. Qed.

Example search_in_delhi :
  Text.search_in "I want to donate In New Delhi " = Some "New Delhi ".
Proof. reflexivity. Qed.

Example search_in_inside_a_word :
  Text.search_in "find within 5 miles" = Some "5 miles".
Proof. reflexivity. Qed.

Example search_in_nothing_after : Text.search_in "donate in " = None.
Proof. reflexivity. Qed.

Example search_in_beyond_ascii :
  Text.search_in ("donate " +:+ dotted_I +:+ "n" +:+ nbsp +:+ "Delhi" +:+ nbsp)
  = Some ("Delhi" +:+ nbsp)
  /\ Text.strip ("Delhi" +:+ nbsp) = "Delhi".
Proof. split; reflexivity. Qed.

Example search_in_next_line :
  Text.search_in ("donate in" +:+ nl +:+ "Delhi" +:+ nl +:+ "today")
  = Some "Delhi".
Proof. reflexivity. Qed.

Example search_finds_two :
  let t := process_message Samples.online "I want to donate food in New Delhi"
             init [] in
  after t = Samples.asked
  /\ trace t = [Printed (nl +:+ "🔄 Searching for organizations...");
                Invoked_find_recipients "New Delhi" init].
Proof. cbv zeta. split; vm_compute; reflexivity. Qed.

Example name_is_stored :
  let t1 := process_message Samples.online "yes" Samples.asked [] in
  let t2 := process_message Samples.online "Asha" (after t1) [] in
  after t2 = Samples.named.
Proof. vm_compute. reflexivity. Qed.

Example log_reports_missing_keyfile :
  reply (process_message Samples.no_keyfile "555-0100" Samples.named [])
  = Ok "❌ Error: service_account.json not found. Please ensure the file is in the correct directory.".
Proof. vm_compute. reflexivity. Qed.

Example log_behind_an_error_reply :
  log_donation_request Samples.quirky (PStr "Asha") (PStr "555-0100")
    [Samples.org1; Samples.org2] []
  = (ledger_error
       "An error occurred while writing to the sheet: APIError: [500]: Internal error",
     rows_to_add (PStr "Asha") (PStr "555-0100") (ctime Samples.quirky)
       [Samples.org1]).
Proof. vm_compute. reflexivity. Qed.

Example refused_key_is_survived :
  let s := chat_loop [(Samples.refused_key, Line "donate in Delhi")]
             Samples.rested [] in
  final s = init /\ ended s = false
  /\ stdout s
     = prompt +:+ nl +:+ "🤖 Assistant: "
       +:+ println (nl +:+ "🔄 Searching for organizations...")
       +:+ println (nl +:+ "❌ An unexpected error occurred: Invalid API key provided.")
       +:+ prompt.
Proof. cbv zeta. repeat split; vm_compute; reflexivity. Qed.

(** ** Text: substring tests, case and trimming *)

Section TextFacts.
Implicit Types (s kw pre post : string) (c : ascii).

Lemma append_cons c s1 s2 : String c s1 +:+ s2 = String c (s1 +:+ s2).
Proof. reflexivity. Qed.

Lemma append_empty s : EmptyString +:+ s = s.
Proof. reflexivity. Qed.

Lemma prefix_cons c1 c2 s1 s2 :
  String.prefix (String c1 s1) (String c2 s2)
  = bool_decide (c1 = c2) && String.prefix s1 s2.
Proof. cbn. destruct (ascii_dec c1 c2); by case_bool_decide. Qed.

Lemma prefix_empty s : String.prefix EmptyString s = true.
Proof. by destruct s. Qed.

Lemma prefix_of_empty kw : String.prefix kw EmptyString = bool_decide (kw = EmptyString).
Proof. by destruct kw. Qed.

Lemma prefix_spec kw s :
  String.prefix kw s = true <-> exists post, s = kw +:+ post.
Proof.
  revert s. induction kw as [|k kw IH]; intros s.
  - rewrite prefix_empty. split; [eauto|done].
  - destruct s as [|c s].
    + split; [done|]. by intros [post Hpost].
    + rewrite prefix_cons, andb_true_iff, bool_decide_eq_true, IH.
      split.
      * intros [-> [post ->]]. by exists post.
      * intros [post Hpost]. rewrite append_cons in Hpost.
        injection Hpost as -> ->. eauto.
Qed.

Lemma contains_prefix kw s :
  String.prefix kw s = true -> Text.contains kw s = true.
Proof. intros H. destruct s; cbn [Text.contains]; by rewrite H. Qed.

Lemma contains_spec kw s :
  Text.contains kw s = true <-> exists pre post, s = pre +:+ kw +:+ post.
Proof.
  split.
  - induction s as [|c s IH]; cbn [Text.contains];
      rewrite orb_true_iff; intros [Hpre|Hrest]; try done.
    + apply prefix_spec in Hpre as [post ->]. by exists EmptyString, post.
    + apply prefix_spec in Hpre as [post ->]. by exists EmptyString, post.
    + destruct (IH Hrest) as (pre & post & ->). by exists (String c pre), post.
  - intros (pre & post & ->). induction pre as [|c pre IH].
    + rewrite append_empty, contains_prefix; [done|]. apply prefix_spec. eauto.
    + rewrite append_cons. cbn [Text.contains]. rewrite IH. apply orb_true_r.
Qed.

Lemma lower_app s1 s2 : Text.lower (s1 +:+ s2) = Text.lower s1 +:+ Text.lower s2.
Proof.
  induction s1 as [|c s1 IH]; [done|].
  rewrite append_cons. cbn [Text.lower]. by rewrite append_cons, IH.
Qed.

Lemma lower_split s x y :
  Text.lower s = x +:+ y ->
  exists a b, s = a +:+ b /\ Text.lower a = x /\ Text.lower b = y.
Proof.
  revert s. induction x as [|c x IH]; intros s Hs.
  - by exists EmptyString, s.
  - destruct s as [|d s]; [done|]. rewrite append_cons in Hs. cbn in Hs.
    injection Hs as Hd Hs. destruct (IH _ Hs) as (a & b & -> & Ha & Hb).
    exists (String d a), b. cbn. by rewrite Hd, Ha.
Qed.

(** [kw in message.lower()] is the occurrence of [kw], case ignored. *)
Lemma contains_lower kw message :
  Text.contains kw (Text.lower message) = true <-> occurs_ci kw message.
Proof.
  rewrite contains_spec. split.
  - intros (pre & post & H).
    apply lower_split in H as (a & rest & -> & _ & H).
    apply lower_split in H as (mid & b & -> & Hmid & _).
    by exists a, mid, b.
  - intros (pre & mid & post & -> & Hmid).
    exists (Text.lower pre), (Text.lower post).
    by rewrite !lower_app, Hmid.
Qed.

Lemma contains_of_empty kw : kw ≠ EmptyString -> Text.contains kw EmptyString = false.
Proof. by destruct kw. Qed.

Lemma append_empty_r s : s +:+ EmptyString = s.
Proof. induction s as [|c s IH]; [done|]. by rewrite append_cons, IH. Qed.

Lemma append_assoc s1 s2 s3 : (s1 +:+ s2) +:+ s3 = s1 +:+ s2 +:+ s3.
Proof. induction s1 as [|c s1 IH]; [done|]. by rewrite !append_cons, IH. Qed.

Lemma length_append s1 s2 :
  String.length (s1 +:+ s2) = String.length s1 + String.length s2.
Proof. induction s1 as [|c s1 IH]; [done|]. rewrite append_cons. cbn. by rewrite IH. Qed.

Lemma string_length_ind (P : string -> Prop) :
  (forall s, (forall t, String.length t < String.length s -> P t) -> P s) ->
  forall s, P s.
Proof.
  intros step s. remember (String.length s) as n eqn:Hn. revert s Hn.
  induction n as [n IH] using lt_wf_ind. intros s ->.
  apply step. intros t Ht. by apply (IH _ Ht).
Qed.

(** *** The bytes of white space *)

Ltac to_arith :=
  unfold Text.white3, Text.white2, plain, Text.isspace in *; cbv zeta in *;
  repeat match goal with
         | |- _ = false => apply not_true_is_false; intros ?
         end;
  repeat match goal with
         | H : _ |- _ =>
             progress rewrite ?orb_true_iff, ?andb_true_iff, ?negb_true_iff,
               ?N.eqb_eq, ?N.leb_le, ?N.ltb_lt in H
         end.

Lemma isspace_not_plain c : Text.isspace c = true -> plain c = false.
Proof. intros H. unfold plain. by rewrite H, andb_false_r. Qed.

Lemma plain_not_space c : plain c = true -> Text.isspace c = false.
Proof. unfold plain. by intros [_ ?%negb_true_iff]%andb_true_iff. Qed.

Lemma white2_facts c d :
  Text.white2 c d = true ->
  Text.isspace c = false /\ Text.isspace d = false
  /\ plain c = false /\ plain d = false.
Proof. intros H. repeat split; to_arith; lia. Qed.

Lemma white3_facts c d e :
  Text.white3 c d e = true ->
  Text.isspace c = false /\ Text.white2 c d = false
  /\ Text.isspace e = false /\ Text.white2 d e = false
  /\ plain c = false /\ plain d = false /\ plain e = false.
Proof. intros H. repeat split; to_arith; lia. Qed.

Lemma white_no_plain w : Text.is_white_char w = true -> no_plain w = true.
Proof.
  destruct w as [|c [|d [|e [|f w]]]]; try done;
    cbn [Text.is_white_char no_plain]; intros H.
  - by rewrite (isspace_not_plain _ H).
  - destruct (white2_facts _ _ H) as (_ & _ & -> & ->). done.
  - destruct (white3_facts _ _ _ H) as (_ & _ & _ & _ & -> & -> & ->). done.
Qed.

Lemma skip_white_inv s rest :
  Text.skip_white s = Some rest ->
  exists w,
    s = w +:+ rest /\ Text.is_white_char w = true
    /\ String.length rest < String.length s.
Proof.
  destruct s as [|c s1]; [done|]. cbn [Text.skip_white].
  destruct (Text.isspace c) eqn:Hc.
  { intros [= <-]. exists (String c EmptyString).
    split; [done|]. split; [done|cbn [String.length]; lia]. }
  destruct s1 as [|d s2]; [done|]. destruct (Text.white2 c d) eqn:H2.
  { intros [= <-]. exists (String c (String d EmptyString)).
    split; [done|]. split; [done|cbn [String.length]; lia]. }
  destruct s2 as [|e s3]; [done|]. destruct (Text.white3 c d e) eqn:H3; [|done].
  intros [= <-]. exists (String c (String d (String e EmptyString))).
  split; [done|]. split; [done|cbn [String.length]; lia].
Qed.

Lemma skip_white_white w x :
  Text.is_white_char w = true -> Text.skip_white (w +:+ x) = Some x.
Proof.
  destruct w as [|c [|d [|e [|f w]]]]; try done;
    cbn [Text.is_white_char]; intros H;
    rewrite ?append_cons, ?append_empty; cbn [Text.skip_white].
  - by rewrite H.
  - destruct (white2_facts _ _ H) as (-> & _). by rewrite H.
  - destruct (white3_facts _ _ _ H) as (-> & -> & _). by rewrite H.
Qed.

Lemma skip_white_app x r y :
  Text.skip_white x = Some r -> Text.skip_white (x +:+ y) = Some (r +:+ y).
Proof.
  intros (w & -> & Hw & _)%skip_white_inv.
  rewrite append_assoc. by apply skip_white_white.
Qed.

Lemma skip_white_head c s :
  Text.skip_white (String c s) = None -> Text.isspace c = false.
Proof. cbn [Text.skip_white]. by destruct (Text.isspace c). Qed.

(** *** [lstrip] *)

Lemma lstrip_unfold s :
  Text.lstrip s
  = match Text.skip_white s with
    | Some rest => Text.lstrip rest
    | None => s
    end.
Proof.
  destruct s as [|c [|d [|e s3]]]; cbn [Text.lstrip Text.skip_white]; try done.
  - by destruct (Text.isspace c).
  - destruct (Text.isspace c); [done|]. by destruct (Text.white2 c d).
  - destruct (Text.isspace c); [done|]. destruct (Text.white2 c d); [done|].
    by destruct (Text.white3 c d e).
Qed.

Lemma lstrip_fixed s : Text.skip_white (Text.lstrip s) = None.
Proof.
  induction s as [s IH] using string_length_ind. rewrite lstrip_unfold.
  destruct (Text.skip_white s) as [rest|] eqn:Hs; [|done].
  apply skip_white_inv in Hs as (_ & _ & _ & Hlen). by apply IH.
Qed.

Lemma lstrip_none s : Text.skip_white s = None -> Text.lstrip s = s.
Proof. intros H. by rewrite lstrip_unfold, H. Qed.

Lemma lstrip_idem s : Text.lstrip (Text.lstrip s) = Text.lstrip s.
Proof. apply lstrip_none, lstrip_fixed. Qed.

Lemma blank_spec s : blank s = true <-> Text.lstrip s = EmptyString.
Proof. unfold blank. apply bool_decide_eq_true. Qed.

Lemma lstrip_suffix s :
  exists pre, s = pre +:+ Text.lstrip s /\ blank pre = true.
Proof.
  induction s as [s IH] using string_length_ind. rewrite lstrip_unfold.
  destruct (Text.skip_white s) as [rest|] eqn:Hs; [|by exists EmptyString].
  pose proof Hs as (w & -> & Hw & Hlen)%skip_white_inv.
  destruct (IH _ Hlen) as (pre & Hrest & Hpre).
  exists (w +:+ pre). split.
  - rewrite append_assoc. by rewrite <-Hrest.
  - apply blank_spec. rewrite lstrip_unfold.
    rewrite (skip_white_white _ _ Hw). by apply blank_spec.
Qed.

Lemma lstrip_app_blank pre s :
  blank pre = true -> Text.lstrip (pre +:+ s) = Text.lstrip s.
Proof.
  induction pre as [pre IH] using string_length_ind.
  intros Hpre%blank_spec. rewrite lstrip_unfold in Hpre.
  destruct (Text.skip_white pre) as [rest|] eqn:Hs.
  - rewrite (lstrip_unfold (pre +:+ s)), (skip_white_app _ _ _ Hs).
    apply skip_white_inv in Hs as (_ & _ & _ & Hlen).
    apply IH; [done|]. by apply blank_spec.
  - by subst pre.
Qed.

(** *** [rstrip] *)

Lemma rstrip_prefix s :
  exists post, s = Text.rstrip s +:+ post /\ blank post = true.
Proof.
  induction s as [|c s (post & Hs & Hpost)]; [by exists EmptyString|].
  cbn [Text.rstrip]. cbv zeta.
  destruct (Text.is_white_char (String c (Text.rstrip s))) eqn:Hw.
  - exists (String c s). split; [done|]. apply blank_spec.
    rewrite Hs at 1. rewrite <-append_cons, lstrip_unfold.
    rewrite (skip_white_white _ _ Hw). by apply blank_spec.
  - exists post. rewrite append_cons. by rewrite <-Hs.
Qed.

Lemma rstrip_idem s : Text.rstrip (Text.rstrip s) = Text.rstrip s.
Proof.
  induction s as [|c s IH]; [done|]. cbn [Text.rstrip]. cbv zeta.
  destruct (Text.is_white_char (String c (Text.rstrip s))) eqn:Hw; [done|].
  cbn [Text.rstrip]. cbv zeta. by rewrite IH, Hw.
Qed.

Lemma rstrip_tail s :
  Text.rstrip s = EmptyString \/ ends_nonspace (Text.rstrip s) = true.
Proof.
  induction s as [|c s IH]; [by left|]. cbn [Text.rstrip]. cbv zeta.
  destruct (Text.is_white_char (String c (Text.rstrip s))) eqn:Hw; [by left|].
  right. destruct (Text.rstrip s) as [|d r].
  - cbn [Text.is_white_char] in Hw. cbn [ends_nonspace]. by rewrite Hw.
  - by destruct IH.
Qed.

Lemma rstrip_app_nil a b :
  Text.rstrip b = EmptyString -> Text.rstrip (a +:+ b) = Text.rstrip a.
Proof.
  intros Hb. induction a as [|c a IH]; [done|].
  rewrite append_cons. cbn [Text.rstrip]. by rewrite IH.
Qed.

Lemma rstrip_white w : Text.is_white_char w = true -> Text.rstrip w = EmptyString.
Proof.
  destruct w as [|c [|d [|e [|f w]]]]; try done;
    cbn [Text.is_white_char]; intros H; cbn [Text.rstrip Text.is_white_char].
  - by rewrite H.
  - destruct (white2_facts _ _ H) as (_ & -> & _). by rewrite H.
  - destruct (white3_facts _ _ _ H) as (_ & _ & -> & -> & _). by rewrite H.
Qed.

Lemma rstrip_blank post : blank post = true -> Text.rstrip post = EmptyString.
Proof.
  induction post as [post IH] using string_length_ind.
  intros Hpost%blank_spec. rewrite lstrip_unfold in Hpost.
  destruct (Text.skip_white post) as [rest|] eqn:Hs; [|by subst post].
  apply skip_white_inv in Hs as (w & -> & Hw & Hlen).
  rewrite rstrip_app_nil; [by apply rstrip_white|].
  apply IH; [done|]. by apply blank_spec.
Qed.

Lemma rstrip_keeps_skip s :
  Text.skip_white s = None -> Text.skip_white (Text.rstrip s) = None.
Proof.
  intros Hs. destruct (rstrip_prefix s) as (post & Hsplit & _).
  destruct (Text.skip_white (Text.rstrip s)) as [x|] eqn:Hr; [|done].
  apply (skip_white_app _ _ post) in Hr. rewrite <-Hsplit in Hr. congruence.
Qed.

(** *** [strip] *)

Lemma strip_idem s : Text.strip (Text.strip s) = Text.strip s.
Proof.
  unfold Text.strip.
  rewrite (lstrip_none (Text.rstrip (Text.lstrip s)))
    by apply rstrip_keeps_skip, lstrip_fixed.
  apply rstrip_idem.
Qed.

(** [s.strip()] cuts a run of white space at each end. *)
Lemma strip_split s :
  exists pre post,
    s = pre +:+ Text.strip s +:+ post /\ blank pre = true /\ blank post = true.
Proof.
  destruct (lstrip_suffix s) as (pre & Hs & Hpre).
  destruct (rstrip_prefix (Text.lstrip s)) as (post & Hl & Hpost).
  exists pre, post. unfold Text.strip. by rewrite <-Hl.
Qed.

(** What [strip] returns has no white space of one byte at either end. *)
Lemma strip_trimmed s : trimmed (Text.strip s) = true.
Proof.
  unfold Text.strip.
  pose proof (rstrip_keeps_skip _ (lstrip_fixed s)) as Hhead.
  destruct (rstrip_tail (Text.lstrip s)) as [->|Htail]; [done|].
  destruct (Text.rstrip (Text.lstrip s)) as [|c r]; [done|].
  apply skip_white_head in Hhead. unfold trimmed.
  rewrite Htail, andb_true_r. cbn [starts_nonspace]. by rewrite Hhead.
Qed.

(** *** Trimming cannot hide an ASCII word *)

Lemma ends_plain_nonempty kw : ends_plain kw = true -> kw ≠ EmptyString.
Proof. by destruct kw. Qed.

Lemma prefix_no_plain kw r :
  ends_plain kw = true -> no_plain r = true -> String.prefix kw r = false.
Proof.
  revert r. induction kw as [|k kw IH]; intros r Hkw Hr; [done|].
  destruct r as [|c r]; [done|]. rewrite prefix_cons.
  cbn [no_plain] in Hr. apply andb_true_iff in Hr as [Hc Hr].
  destruct kw as [|k2 kw].
  - cbn [ends_plain] in Hkw. case_bool_decide as Hk; [|done].
    subst c. by rewrite Hkw in Hc.
  - rewrite (IH r Hkw Hr). apply andb_false_r.
Qed.

Lemma contains_no_plain kw r :
  ends_plain kw = true -> no_plain r = true -> Text.contains kw r = false.
Proof.
  intros Hkw. induction r as [|c r IH]; intros Hr.
  - apply contains_of_empty. by apply ends_plain_nonempty.
  - cbn [Text.contains]. rewrite (prefix_no_plain _ _ Hkw Hr).
    cbn [no_plain] in Hr. apply andb_true_iff in Hr as [_ Hr]. by rewrite IH.
Qed.

Lemma prefix_not_plain kw c s :
  starts_plain kw = true -> plain c = false ->
  String.prefix kw (String c s) = false.
Proof.
  destruct kw as [|k kw]; [done|]. cbn [starts_plain]. intros Hk Hc.
  rewrite prefix_cons. case_bool_decide; [|done]. congruence.
Qed.

Lemma contains_past_white kw w rest :
  starts_plain kw = true -> Text.is_white_char w = true ->
  Text.contains kw (w +:+ rest) = Text.contains kw rest.
Proof.
  intros Hkw Hw%white_no_plain. induction w as [|c w IH]; [done|].
  cbn [no_plain] in Hw. apply andb_true_iff in Hw as [Hc%negb_true_iff Hw].
  rewrite append_cons. cbn [Text.contains].
  by rewrite (prefix_not_plain _ _ _ Hkw Hc), (IH Hw).
Qed.

Lemma contains_lstrip kw s :
  starts_plain kw = true ->
  Text.contains kw (Text.lstrip s) = Text.contains kw s.
Proof.
  intros Hkw. induction s as [s IH] using string_length_ind.
  rewrite lstrip_unfold.
  destruct (Text.skip_white s) as [rest|] eqn:Hs; [|done].
  apply skip_white_inv in Hs as (w & -> & Hw & Hlen).
  by rewrite (contains_past_white _ _ _ Hkw Hw), IH.
Qed.

Lemma no_plain_tail c r : no_plain (String c r) = true -> no_plain r = true.
Proof. cbn [no_plain]. by intros [_ ?]%andb_true_iff. Qed.

Lemma prefix_rstrip kw s :
  ends_plain kw = true ->
  String.prefix kw (Text.rstrip s) = String.prefix kw s.
Proof.
  revert kw. induction s as [|c s IH]; intros kw Hkw; [done|].
  destruct kw as [|k kw]; [done|].
  cbn [Text.rstrip]. cbv zeta.
  destruct (Text.is_white_char (String c (Text.rstrip s))) eqn:Hw.
  - apply white_no_plain in Hw. symmetry. rewrite prefix_cons.
    destruct kw as [|k2 kw].
    + cbn [ends_plain] in Hkw. cbn [no_plain] in Hw.
      apply andb_true_iff in Hw as [Hc%negb_true_iff _].
      case_bool_decide; [congruence|done].
    + rewrite <-(IH (String k2 kw) Hkw).
      rewrite (prefix_no_plain (String k2 kw) _ Hkw (no_plain_tail _ _ Hw)).
      apply andb_false_r.
  - rewrite !prefix_cons. destruct kw as [|k2 kw].
    + by rewrite !prefix_empty.
    + by rewrite (IH (String k2 kw) Hkw).
Qed.

Lemma contains_rstrip kw s :
  ends_plain kw = true ->
  Text.contains kw (Text.rstrip s) = Text.contains kw s.
Proof.
  intros Hkw. pose proof (ends_plain_nonempty _ Hkw) as Hne.
  induction s as [|c s IH]; [done|].
  cbn [Text.contains]. rewrite <-(prefix_rstrip kw (String c s)) by done.
  rewrite <-IH. cbn [Text.rstrip]. cbv zeta.
  destruct (Text.is_white_char (String c (Text.rstrip s))) eqn:Hw.
  - rewrite (contains_of_empty _ Hne).
    apply white_no_plain, no_plain_tail in Hw.
    rewrite (contains_no_plain _ _ Hkw Hw), prefix_of_empty.
    by rewrite bool_decide_eq_false_2.
  - done.
Qed.

Lemma contains_strip kw s :
  starts_plain kw = true -> ends_plain kw = true ->
  Text.contains kw (Text.strip s) = Text.contains kw s.
Proof.
  intros Hs He. unfold Text.strip. by rewrite contains_rstrip, contains_lstrip.
Qed.

(** The test of line 230 holds exactly of the messages that have one of the
    keywords, case ignored: trimming cannot hide a keyword. *)
Lemma search_intent_spec message :
  search_intent (Text.strip (Text.lower message)) = true <-> has_keyword message.
Proof.
  unfold search_intent, has_keyword.
  rewrite !contains_strip by reflexivity.
  rewrite !orb_true_iff, !contains_lower. tauto.
Qed.

(** *** Trimming and case *)

Lemma isspace_lower c : Text.isspace (Text.lower_char c) = Text.isspace c.
Proof. by destruct c as [[] [] [] [] [] [] [] []]. Qed.

Lemma lower_char_high c :
  (128 <=? Text.code c)%N = true -> Text.lower_char c = c.
Proof. by destruct c as [[] [] [] [] [] [] [] []]. Qed.

Lemma lower_char_low c :
  (128 <=? Text.code c)%N = false ->
  (128 <=? Text.code (Text.lower_char c))%N = false.
Proof. by destruct c as [[] [] [] [] [] [] [] []]. Qed.

Lemma white2_high c d :
  Text.white2 c d = true ->
  (128 <=? Text.code c)%N = true /\ (128 <=? Text.code d)%N = true.
Proof. intros H. to_arith. rewrite !N.leb_le. lia. Qed.

Lemma white3_high c d e :
  Text.white3 c d e = true ->
  (128 <=? Text.code c)%N = true /\ (128 <=? Text.code d)%N = true
  /\ (128 <=? Text.code e)%N = true.
Proof. intros H. to_arith. rewrite !N.leb_le. lia. Qed.

Lemma white2_lower c d :
  Text.white2 (Text.lower_char c) (Text.lower_char d) = Text.white2 c d.
Proof.
  destruct (128 <=? Text.code c)%N eqn:Hc, (128 <=? Text.code d)%N eqn:Hd;
    try (by rewrite (lower_char_high c), (lower_char_high d)).
  all: destruct (Text.white2 c d) eqn:H1;
    [apply white2_high in H1 as [? ?]; congruence|].
  all: apply not_true_is_false; intros [H2 H3]%white2_high.
  all: first [ by rewrite (lower_char_low _ Hc) in H2
             | by rewrite (lower_char_low _ Hd) in H3 ].
Qed.

Lemma white3_lower c d e :
  Text.white3 (Text.lower_char c) (Text.lower_char d) (Text.lower_char e)
  = Text.white3 c d e.
Proof.
  destruct (128 <=? Text.code c)%N eqn:Hc, (128 <=? Text.code d)%N eqn:Hd,
           (128 <=? Text.code e)%N eqn:He;
    try (by rewrite (lower_char_high c), (lower_char_high d), (lower_char_high e)).
  all: destruct (Text.white3 c d e) eqn:H1;
    [apply white3_high in H1 as (? & ? & ?); congruence|].
  all: apply not_true_is_false; intros (H2 & H3 & H4)%white3_high.
  all: first [ by rewrite (lower_char_low _ Hc) in H2
             | by rewrite (lower_char_low _ Hd) in H3
             | by rewrite (lower_char_low _ He) in H4 ].
Qed.

Lemma is_white_lower w :
  Text.is_white_char (Text.lower w) = Text.is_white_char w.
Proof.
  destruct w as [|c [|d [|e [|f w]]]]; try done;
    cbn [Text.lower Text.is_white_char].
  - apply isspace_lower.
  - apply white2_lower.
  - apply white3_lower.
Qed.

Lemma length_lower s : String.length (Text.lower s) = String.length s.
Proof. induction s as [|c s IH]; [done|]. cbn. by rewrite IH. Qed.

Lemma skip_white_lower s :
  Text.skip_white (Text.lower s) = Text.lower <$> Text.skip_white s.
Proof.
  destruct s as [|c [|d [|e s3]]];
    cbn [Text.lower Text.skip_white]; rewrite ?isspace_lower, ?white2_lower,
      ?white3_lower; try done.
  - by destruct (Text.isspace c).
  - destruct (Text.isspace c); [done|]. by destruct (Text.white2 c d).
  - destruct (Text.isspace c); [done|]. destruct (Text.white2 c d); [done|].
    by destruct (Text.white3 c d e).
Qed.

Lemma lstrip_lower s : Text.lstrip (Text.lower s) = Text.lower (Text.lstrip s).
Proof.
  induction s as [s IH] using string_length_ind.
  rewrite (lstrip_unfold s), (lstrip_unfold (Text.lower s)), skip_white_lower.
  destruct (Text.skip_white s) as [rest|] eqn:Hs; [|done]. cbn.
  apply skip_white_inv in Hs as (_ & _ & _ & Hlen). by apply IH.
Qed.

Lemma rstrip_lower s : Text.rstrip (Text.lower s) = Text.lower (Text.rstrip s).
Proof.
  induction s as [|c s IH]; [done|]. cbn [Text.lower Text.rstrip]. cbv zeta.
  rewrite IH.
  change (String (Text.lower_char c) (Text.lower (Text.rstrip s)))
    with (Text.lower (String c (Text.rstrip s))).
  rewrite is_white_lower.
  by destruct (Text.is_white_char (String c (Text.rstrip s))).
Qed.

(** Trimming and lowering commute. *)
Lemma strip_lower s : Text.strip (Text.lower s) = Text.lower (Text.strip s).
Proof. unfold Text.strip. by rewrite lstrip_lower, rstrip_lower. Qed.

Lemma blank_lower s : blank (Text.lower s) = blank s.
Proof.
  unfold blank. rewrite lstrip_lower.
  destruct (Text.lstrip s); cbn; by repeat case_bool_decide.
Qed.

(** The test of line 222 accepts exactly "yes" in any case, with white space
    around it. *)
Lemma says_yes message :
  Text.strip (Text.lower message) = "yes" <->
  exists pre mid post,
    message = pre +:+ mid +:+ post
    /\ blank pre = true /\ blank post = true
    /\ Text.lower mid = "yes".
Proof.
  split.
  - rewrite strip_lower. intros Hyes.
    destruct (strip_split message) as (pre & post & Hm & Hpre & Hpost).
    by exists pre, (Text.strip message), post.
  - intros (pre & mid & post & -> & Hpre & Hpost & Hmid).
    rewrite !lower_app, Hmid. unfold Text.strip.
    rewrite lstrip_app_blank by by rewrite blank_lower.
    rewrite (lstrip_none ("yes" +:+ Text.lower post)) by done.
    rewrite rstrip_app_nil; [done|].
    apply rstrip_blank. by rewrite blank_lower.
Qed.

End TextFacts.

(** ** Reading the flags of the context *)

Section Flags.
Implicit Types (d : gmap string pyval) (k : string) (v : pyval).

Lemma truthy_get_insert_eq d k v : truthy_get (<[k:=v]> d) k = truthy v.
Proof. unfold truthy_get. by rewrite lookup_insert_eq. Qed.

Lemma truthy_get_insert_ne d k k' v :
  k ≠ k' -> truthy_get (<[k:=v]> d) k' = truthy_get d k'.
Proof. intros Hne. unfold truthy_get. by rewrite lookup_insert_ne. Qed.

Lemma truthy_get_empty k : truthy_get ∅ k = false.
Proof. unfold truthy_get. by rewrite lookup_empty. Qed.
End Flags.

Create Rewrite HintDb flags.
#[export] Hint Rewrite truthy_get_insert_eq truthy_get_empty : flags.
#[export] Hint Rewrite truthy_get_insert_ne using discriminate : flags.

(** Splits on the three flag tests of the router, in their order. *)
Ltac flag_cases self :=
  destruct (truthy_get (conversation_context self) "awaiting_user_name") eqn:?;
  [ | destruct (truthy_get (conversation_context self) "awaiting_user_phone") eqn:?;
      [ | destruct (truthy_get (conversation_context self) "awaiting_log_confirmation") eqn:? ] ].

Lemma pending_name self :
  pendingStep self = AWAITING_NAME <->
  truthy_get (conversation_context self) "awaiting_user_name" = true.
Proof. unfold pendingStep. flag_cases self; intuition congruence. Qed.

Lemma pending_phone self :
  pendingStep self = AWAITING_PHONE <->
  truthy_get (conversation_context self) "awaiting_user_name" = false
  /\ truthy_get (conversation_context self) "awaiting_user_phone" = true.
Proof. unfold pendingStep. flag_cases self; intuition congruence. Qed.

Lemma pending_confirmation self :
  pendingStep self = AWAITING_LOG_CONFIRMATION <->
  truthy_get (conversation_context self) "awaiting_user_name" = false
  /\ truthy_get (conversation_context self) "awaiting_user_phone" = false
  /\ truthy_get (conversation_context self) "awaiting_log_confirmation" = true.
Proof. unfold pendingStep. flag_cases self; intuition congruence. Qed.

Lemma pending_none self :
  pendingStep self = NONE <->
  truthy_get (conversation_context self) "awaiting_user_name" = false
  /\ truthy_get (conversation_context self) "awaiting_user_phone" = false
  /\ truthy_get (conversation_context self) "awaiting_log_confirmation" = false.
Proof. unfold pendingStep. flag_cases self; intuition congruence. Qed.

Lemma pending_cleared self : pendingStep (set_context ∅ self) = NONE.
Proof. apply pending_none. cbn. by autorewrite with flags. Qed.

Lemma pending_set_cached orgs self :
  pendingStep (set_cached orgs self) = pendingStep self.
Proof. reflexivity. Qed.

(** Splits on what a search meets: a location or none, a lookup that returns
    or raises, recipients or none. *)
Ltac search_cases E :=
  unfold search in *;
  destruct (Text.search_in _) as [?g|] eqn:?;
  [ destruct (find_recipients E _) as [?result_data|?e] eqn:?;
    [ destruct (Lookup.recipients _) as [[|?org ?found]|] eqn:? | ] | ].

(** ** The branches of the router, one equation each *)

Lemma route_name E message self sheet :
  pendingStep self = AWAITING_NAME ->
  process_message E message self sheet =
  {| reply := Ok msg_name_thanks;
     after :=
       set_context
         (<["awaiting_user_phone" := PBool true]>
            (<["awaiting_user_name" := PBool false]>
               (<["user_name" := PStr message]> (conversation_context self))))
         self;
     sheet_after := sheet; trace := [] |}.
Proof. intros H%pending_name. unfold process_message. by rewrite H. Qed.

Lemma route_phone E message self sheet :
  pendingStep self = AWAITING_PHONE ->
  process_message E message self sheet = answer_phone E message self sheet.
Proof. intros [H1 H2]%pending_phone. unfold process_message. by rewrite H1, H2. Qed.

Lemma route_confirmed E message self sheet :
  pendingStep self = AWAITING_LOG_CONFIRMATION ->
  Text.strip (Text.lower message) = "yes" ->
  process_message E message self sheet =
  {| reply := Ok msg_ask_name;
     after :=
       set_context
         (<["awaiting_user_name" := PBool true]>
            (<["awaiting_log_confirmation" := PBool false]> (conversation_context self)))
         self;
     sheet_after := sheet; trace := [] |}.
Proof.
  intros (H1 & H2 & H3)%pending_confirmation Hyes. unfold process_message.
  by rewrite H1, H2, H3, Hyes.
Qed.

Lemma route_declined E message self sheet :
  pendingStep self = AWAITING_LOG_CONFIRMATION ->
  Text.strip (Text.lower message) ≠ "yes" ->
  process_message E message self sheet =
  {| reply := Ok msg_declined; after := set_context ∅ self;
     sheet_after := sheet; trace := [] |}.
Proof.
  intros (H1 & H2 & H3)%pending_confirmation Hno. unfold process_message.
  rewrite H1, H2, H3. by rewrite bool_decide_eq_false_2.
Qed.

Lemma route_search E message self sheet :
  pendingStep self = NONE ->
  search_intent (Text.strip (Text.lower message)) = true ->
  process_message E message self sheet = search E message self sheet.
Proof.
  intros (H1 & H2 & H3)%pending_none Hkw. unfold process_message.
  by rewrite H1, H2, H3, Hkw.
Qed.

Lemma route_help E message self sheet :
  pendingStep self = NONE ->
  search_intent (Text.strip (Text.lower message)) = false ->
  process_message E message self sheet =
  {| reply := Ok msg_help; after := self; sheet_after := sheet; trace := [] |}.
Proof.
  intros (H1 & H2 & H3)%pending_none Hkw. unfold process_message.
  by rewrite H1, H2, H3, Hkw.
Qed.

Lemma confirmation_branch_cache E message self sheet :
  pendingStep self = AWAITING_LOG_CONFIRMATION ->
  cached_organizations (after (process_message E message self sheet))
  = cached_organizations self.
Proof.
  intros Hp.
  destruct (decide (Text.strip (Text.lower message) = "yes")) as [Hyes|Hno].
  - by rewrite (route_confirmed _ _ _ _ Hp Hyes).
  - by rewrite (route_declined _ _ _ _ Hp Hno).
Qed.

(** ** The confirmation step *)

(** C1, as stated, fails: declining in AWAITING_LOG_CONFIRMATION clears the
    context but not the cache.  With two organizations cached, the answer
    "no" is not "yes", the state goes back to NONE, and the cache still holds
    the two organizations. *)
Lemma decline_keeps_cache :
  let t := process_message Samples.online "no" Samples.asked [] in
  pendingStep Samples.asked = AWAITING_LOG_CONFIRMATION
  /\ Text.strip (Text.lower "no") ≠ "yes"
  /\ pendingStep (after t) = NONE
  /\ cached_organizations (after t) = [Samples.org1; Samples.org2]
  /\ cached_organizations (after t) ≠ [].
Proof. cbv zeta. repeat split; try reflexivity; discriminate. Qed.

(** C1, amended: in AWAITING_LOG_CONFIRMATION a message whose trimmed,
    lowercased form is "yes" moves the state to AWAITING_NAME; any other
    message empties the conversation context, which puts the state back to
    NONE (idle), returns the decline message, and leaves the organization
    cache as it was.  Neither case calls a tool or touches the sheet. *)
Theorem confirmation_step E message self sheet :
  pendingStep self = AWAITING_LOG_CONFIRMATION ->
  let t := process_message E message self sheet in
  (Text.strip (Text.lower message) = "yes" ->
     pendingStep (after t) = AWAITING_NAME
     /\ reply t = Ok msg_ask_name)
  /\ (Text.strip (Text.lower message) ≠ "yes" ->
     conversation_context (after t) = ∅
     /\ pendingStep (after t) = NONE
     /\ reply t = Ok msg_declined)
  /\ cached_organizations (after t) = cached_organizations self
  /\ trace t = []
  /\ sheet_after t = sheet.
Proof.
  intros Hp t. subst t.
  destruct (decide (Text.strip (Text.lower message) = "yes")) as [Hyes|Hno].
  - rewrite (route_confirmed _ _ _ _ Hp Hyes). cbn.
    split; [intros _; split; [|done] | split; [congruence | done]].
    apply pending_name. cbn. by autorewrite with flags.
  - rewrite (route_declined _ _ _ _ Hp Hno). cbn.
    split; [congruence | split; [intros _ | done]].
    split; [done | split; [apply pending_cleared | done]].
Qed.

Lemma confirmation_step_witness :
  let t := process_message Samples.online " Yes " Samples.asked [] in
  pendingStep (after t) = AWAITING_NAME /\ reply t = Ok msg_ask_name.
Proof.
  refine (proj1 (confirmation_step Samples.online " Yes " Samples.asked [] _) _);
    reflexivity.
Defined.

(** ** The ledger client *)

Lemma log_when_ready E user_name user_phone organizations sheet :
  ledger_ready E ->
  log_donation_request E user_name user_phone organizations sheet =
  (ledger_success,
   sheet ++ header_if_empty (sheet_values E sheet)
     ++ rows_to_add user_name user_phone (ctime E) organizations).
Proof.
  intros (Hlib & (sid & Hid & Hopen) & Hkey & Hauth & Hfault).
  unfold log_donation_request, log_attempt. rewrite Hlib, Hid. cbn.
  unfold mbind, sheetM_bind, lift, get_all_values, append_row, append_rows.
  rewrite Hkey, Hauth, Hopen, !Hfault.
  destruct (sheet_values E sheet) as [|r0 values];
    destruct organizations as [|o orgs]; cbn;
    unfold mret, sheetM_ret; by rewrite <-?app_assoc, ?app_nil_r.
Qed.

Lemma online_ready : ledger_ready Samples.online.
Proof.
  repeat split; try reflexivity. exists "sheet-1". split; reflexivity.
Defined.

Lemma log_attempt_returns E sid user_name user_phone organizations sheet sheet' r :
  log_attempt E sid user_name user_phone organizations sheet = (sheet', Ok r) ->
  r = ledger_success.
Proof.
  unfold log_attempt, mbind, sheetM_bind, lift, get_all_values, append_row,
    append_rows, mret, sheetM_ret.
  repeat (case_match; simplify_eq/=; try done).
  all: intros; by simplify_eq/=.
Qed.

(** The reply of the ledger client is the success acknowledgment or an error
    with its text. *)
Lemma log_reply_cases E user_name user_phone organizations sheet :
  (log_donation_request E user_name user_phone organizations sheet).1 = ledger_success
  \/ exists text,
      (log_donation_request E user_name user_phone organizations sheet).1
      = ledger_error text.
Proof.
  unfold log_donation_request.
  destruct (gspread E); cbn; [|eauto].
  destruct (environ_get E "GOOGLE_SHEET_ID") as [sid|]; [|eauto].
  destruct (log_attempt E sid user_name user_phone organizations sheet)
    as [sheet' [r|e]] eqn:Hrun; cbn.
  - left. eauto using log_attempt_returns.
  - right. destruct e; eauto.
Qed.

(** C9: with the library, the sheet id, the credentials and the worksheet all
    available, a call of the ledger client with no organization builds no
    row, reports success, and adds to the sheet at most the header line, which
    it writes when its read of the sheet returned no rows. *)
Theorem empty_request_succeeds E user_name user_phone sheet :
  ledger_ready E ->
  rows_to_add user_name user_phone (ctime E) [] = []
  /\ log_donation_request E user_name user_phone [] sheet
     = (ledger_success, sheet ++ header_if_empty (sheet_values E sheet)).
Proof.
  intros Hready. split; [reflexivity|].
  rewrite (log_when_ready _ _ _ _ _ Hready). cbn. by rewrite app_nil_r.
Qed.

Lemma empty_request_succeeds_witness :
  log_donation_request Samples.online (PStr "Asha") (PStr "555-0100") []
    [header_row]
  = (ledger_success, [header_row]).
Proof.
  exact (proj2 (empty_request_succeeds Samples.online (PStr "Asha")
                  (PStr "555-0100") [header_row] online_ready)).
Defined.

(** ** The phone step *)

Lemma answer_phone_name message self :
  get_or_none
    (<["awaiting_user_phone" := PBool false]>
       (<["user_phone" := PStr message]> (conversation_context self)))
    "user_name"
  = get_or_none (conversation_context self) "user_name".
Proof. unfold get_or_none. by rewrite !lookup_insert_ne. Qed.

Lemma answer_phone_phone message self :
  get_or_none
    (<["awaiting_user_phone" := PBool false]>
       (<["user_phone" := PStr message]> (conversation_context self)))
    "user_phone"
  = PStr message.
Proof.
  unfold get_or_none. rewrite lookup_insert_ne by done.
  by rewrite lookup_insert_eq.
Qed.

(** What the phone branch does, whatever the state it is run in. *)
Lemma answer_phone_turn E message self sheet :
  let t := answer_phone E message self sheet in
  let user_name := get_or_none (conversation_context self) "user_name" in
  let outcome :=
    log_donation_request E user_name (PStr message) (cached_organizations self)
      sheet in
  (exists at_call,
     tool_calls (trace t)
     = [Invoked_log_donation_request user_name (PStr message)
          (cached_organizations self) at_call])
  /\ after t = set_context ∅ self
  /\ sheet_after t = outcome.2
  /\ ((outcome.1 = ledger_success
       /\ reply t = Ok ("✅ " +:+ "Request logged successfully in the Google Sheet."))
      \/ (exists text,
            outcome.1 = ledger_error text
            /\ reply t = Ok ("❌ Error: " +:+ text))).
Proof.
  intros t user_name outcome. subst t. unfold answer_phone.
  rewrite answer_phone_name, answer_phone_phone. cbn.
  fold user_name. fold outcome.
  pose proof (log_reply_cases E user_name (PStr message)
                (cached_organizations self) sheet) as Hcases.
  fold outcome in Hcases.
  destruct outcome as [log_result sheet']. cbn in *.
  split; [eauto|]. split; [done|]. split; [done|].
  destruct Hcases as [->|[text ->]]; [left|right; exists text]; by cbn.
Qed.

(** C3: in AWAITING_PHONE every message is stored as the phone number and the
    ledger client is called once, within the turn, with the stored name, that
    phone and the cached organizations.  Whatever the call replies, the
    context is emptied (state NONE) and the cache kept; the sheet is what the
    call left; only the returned text tells success from failure. *)
Theorem phone_step E message self sheet :
  pendingStep self = AWAITING_PHONE ->
  let t := process_message E message self sheet in
  let user_name := get_or_none (conversation_context self) "user_name" in
  let outcome :=
    log_donation_request E user_name (PStr message) (cached_organizations self)
      sheet in
  (exists at_call,
     tool_calls (trace t)
     = [Invoked_log_donation_request user_name (PStr message)
          (cached_organizations self) at_call])
  /\ after t = set_context ∅ self
  /\ pendingStep (after t) = NONE
  /\ sheet_after t = outcome.2
  /\ ((outcome.1 = ledger_success
       /\ reply t = Ok ("✅ " +:+ "Request logged successfully in the Google Sheet."))
      \/ (exists text,
            outcome.1 = ledger_error text
            /\ reply t = Ok ("❌ Error: " +:+ text))).
Proof.
  intros Hp t user_name outcome. subst t.
  rewrite (route_phone _ _ _ _ Hp).
  destruct (answer_phone_turn E message self sheet) as (Hcall & Hafter & Hsheet & Hreply).
  split; [exact Hcall|]. split; [exact Hafter|].
  split; [rewrite Hafter; apply pending_cleared|].
  split; [exact Hsheet | exact Hreply].
Qed.

Lemma phone_step_witness :
  let t := process_message Samples.no_keyfile "555-0100" Samples.named [] in
  after t = set_context ∅ Samples.named /\ pendingStep (after t) = NONE.
Proof.
  pose proof (phone_step Samples.no_keyfile "555-0100" Samples.named []
                ltac:(reflexivity)) as H.
  cbv zeta in *. destruct H as (_ & H1 & H2 & _). by split.
Defined.

(** An exception escapes a turn only from the lookup of a search: by then
    the cache has been emptied, and nothing else has changed. *)
Lemma process_message_raises E message self sheet e :
  reply (process_message E message self sheet) = Raise e ->
  pendingStep self = NONE
  /\ after (process_message E message self sheet) = set_cached [] self
  /\ sheet_after (process_message E message self sheet) = sheet.
Proof.
  destruct (pendingStep self) eqn:Hp.
  - destruct (search_intent (Text.strip (Text.lower message))) eqn:Hkw.
    + rewrite (route_search _ _ _ _ Hp Hkw). by search_cases E.
    + by rewrite (route_help _ _ _ _ Hp Hkw).
  - destruct (decide (Text.strip (Text.lower message) = "yes")) as [Hyes|Hno].
    + by rewrite (route_confirmed _ _ _ _ Hp Hyes).
    + by rewrite (route_declined _ _ _ _ Hp Hno).
  - by rewrite (route_name _ _ _ _ Hp).
  - rewrite (route_phone _ _ _ _ Hp).
    destruct (answer_phone_turn E message self sheet) as (_ & _ & _ & Hreply).
    by destruct Hreply as [[_ ->]|(text & _ & ->)].
Qed.

(** ** The whole logging flow *)

Lemma rows_to_add_length user_name user_phone timestamp organizations :
  length (rows_to_add user_name user_phone timestamp organizations)
  = length organizations.
Proof. unfold rows_to_add. apply length_map. Qed.

Lemma rows_to_add_lookup user_name user_phone timestamp organizations i org :
  organizations !! i = Some org ->
  rows_to_add user_name user_phone timestamp organizations !! i
  = Some [user_name; user_phone; org_name org; org_phone org; org_website org;
          PStr timestamp].
Proof.
  revert i. induction organizations as [|o orgs IH]; intros [|i] Hi;
    simplify_eq/=; [done|]. by apply IH.
Qed.

Lemma name_then_phone message self :
  pendingStep
    (set_context
       (<["awaiting_user_phone" := PBool true]>
          (<["awaiting_user_name" := PBool false]>
             (<["user_name" := PStr message]> (conversation_context self))))
       self)
  = AWAITING_PHONE.
Proof. apply pending_phone. cbn. by autorewrite with flags. Qed.

Lemma confirmed_then_name self :
  pendingStep
    (set_context
       (<["awaiting_user_name" := PBool true]>
          (<["awaiting_log_confirmation" := PBool false]>
             (conversation_context self)))
       self)
  = AWAITING_NAME.
Proof. apply pending_name. cbn. by autorewrite with flags. Qed.

(** C2: from AWAITING_LOG_CONFIRMATION, the answers "yes", then a name, then
    a phone number make one tool call in all, the ledger call of the third
    turn, with that name, that phone and the cache as it stood.  The rows the
    client builds from them are one per cached organization, in cache order,
    each starting with the name and the phone; when the ledger can be written
    they are what the sheet gains after its header.  The flow ends with an
    empty context, state NONE. *)
Theorem logging_flow E1 E2 E3 yes name phone self sheet :
  pendingStep self = AWAITING_LOG_CONFIRMATION ->
  Text.strip (Text.lower yes) = "yes" ->
  let t1 := process_message E1 yes self sheet in
  let t2 := process_message E2 name (after t1) (sheet_after t1) in
  let t3 := process_message E3 phone (after t2) (sheet_after t2) in
  let orgs := cached_organizations self in
  let rows := rows_to_add (PStr name) (PStr phone) (ctime E3) orgs in
  (exists at_call,
     tool_calls (trace t1 ++ trace t2 ++ trace t3)
     = [Invoked_log_donation_request (PStr name) (PStr phone) orgs at_call])
  /\ sheet_after t3
     = (log_donation_request E3 (PStr name) (PStr phone) orgs sheet).2
  /\ (ledger_ready E3 ->
      sheet_after t3 = sheet ++ header_if_empty (sheet_values E3 sheet) ++ rows)
  /\ length rows = length orgs
  /\ (forall i org,
        orgs !! i = Some org ->
        rows !! i
        = Some [PStr name; PStr phone; org_name org; org_phone org;
                org_website org; PStr (ctime E3)])
  /\ conversation_context (after t3) = ∅
  /\ pendingStep (after t3) = NONE.
Proof.
  intros Hp Hyes t1 t2 t3 orgs rows. subst t1 t2 t3.
  rewrite (route_confirmed E1 _ _ sheet Hp Hyes). cbn [after sheet_after trace].
  rewrite (route_name E2 name _ sheet (confirmed_then_name self)).
  cbn [after sheet_after trace app].
  set (self2 := set_context _ _).
  rewrite (route_phone E3 phone self2 sheet (name_then_phone name _)).
  destruct (answer_phone_turn E3 phone self2 sheet) as
    ((at_call & Hcall) & Hafter & Hsheet & _).
  assert (Hnone : pendingStep (after (answer_phone E3 phone self2 sheet)) = NONE)
    by (rewrite Hafter; apply pending_cleared).
  assert (Hname : get_or_none (conversation_context self2) "user_name" = PStr name).
  { unfold get_or_none. cbn.
    rewrite !lookup_insert_ne by done. by rewrite lookup_insert_eq. }
  change (cached_organizations self2) with orgs in *.
  rewrite Hname in Hcall, Hsheet.
  split; [by exists at_call|].
  split; [exact Hsheet|].
  split.
  { intros Hready. rewrite Hsheet. by rewrite (log_when_ready _ _ _ _ _ Hready). }
  split; [apply rows_to_add_length|].
  split; [intros i org; apply rows_to_add_lookup|].
  split; [by rewrite Hafter | exact Hnone].
Qed.

Lemma logging_flow_witness :
  let t1 := process_message Samples.unconfigured "YES" Samples.asked [] in
  let t2 := process_message Samples.no_keyfile "Asha" (after t1) (sheet_after t1) in
  let t3 := process_message Samples.online "555-0100" (after t2) (sheet_after t2) in
  sheet_after t3
  = [header_row]
    ++ rows_to_add (PStr "Asha") (PStr "555-0100") (ctime Samples.online)
         [Samples.org1; Samples.org2]
  /\ pendingStep (after t3) = NONE.
Proof.
  pose proof (logging_flow Samples.unconfigured Samples.no_keyfile Samples.online
                "YES" "Asha" "555-0100" Samples.asked []
                ltac:(reflexivity) ltac:(reflexivity)) as H.
  cbv zeta in H. destruct H as (_ & _ & Hsheet & _ & _ & _ & Hnone).
  split; [exact (Hsheet online_ready) | exact Hnone].
Defined.

(** ** Who writes the cache *)

(** C10: the organization cache is written only by the search branch.  A
    turn that answers a pending step (confirmation, name, phone and logging)
    or that falls through to the help text leaves [cached_organizations] as
    it was; so the cache of the last search outlives a completed or a failed
    log, and the clearing of the context. *)
Theorem cache_frame E message self sheet :
  pendingStep self ≠ NONE
  \/ search_intent (Text.strip (Text.lower message)) = false ->
  cached_organizations (after (process_message E message self sheet))
  = cached_organizations self.
Proof.
  intros Hbranch.
  destruct (pendingStep self) eqn:Hp.
  - destruct Hbranch as [?|Hkw]; [done|]. by rewrite (route_help _ _ _ _ Hp Hkw).
  - by destruct (confirmation_branch_cache E message self sheet Hp).
  - by rewrite (route_name _ _ _ _ Hp).
  - rewrite (route_phone _ _ _ _ Hp). unfold answer_phone.
    by destruct (log_donation_request _ _ _ _ _).
Qed.

Lemma cache_frame_witness :
  cached_organizations
    (after (process_message Samples.no_keyfile "555-0100" Samples.named []))
  = [Samples.org1; Samples.org2].
Proof.
  apply (cache_frame Samples.no_keyfile "555-0100" Samples.named []).
  left. discriminate.
Defined.

(** ** The lookup client *)

Lemma detailed_recipients_length gmaps places orgs :
  detailed_recipients gmaps places = Ok orgs -> length orgs <= length places.
Proof.
  revert orgs. induction places as [|p places IH]; intros orgs H; cbn in H.
  - injection H as <-. done.
  - destruct (place_id p) as [[|c pid]|].
    + specialize (IH _ H). cbn. lia.
    + unfold mbind, result_bind in H.
      destruct (place gmaps _ _); [|done].
      destruct (detailed_recipients gmaps places) as [rest|]; [|done].
      injection H as <-. specialize (IH _ eq_refl). cbn. lia.
    + specialize (IH _ H). cbn. lia.
Qed.




(** ** Searching from the idle state *)

Lemma search_not_found E message self sheet group1 result_data :
  Text.search_in message = Some group1 ->
  find_recipients E (Text.strip group1) = Ok result_data ->
  no_recipients result_data ->
  search E message self sheet =
  {| reply :=
       Ok (msg_not_found (default "Unknown issue" (Lookup.error result_data)));
     after := set_cached [] self; sheet_after := sheet;
     trace :=
       [Printed (nl +:+ "🔄 Searching for organizations...");
        Invoked_find_recipients (Text.strip group1) (set_cached [] self)] |}.
Proof.
  intros Hloc Hreply Hnone. unfold search. rewrite Hloc, Hreply.
  by destruct Hnone as [-> | ->].
Qed.

Lemma search_raised E message self sheet group1 e :
  Text.search_in message = Some group1 ->
  find_recipients E (Text.strip group1) = Raise e ->
  search E message self sheet =
  {| reply := Raise e; after := set_cached [] self; sheet_after := sheet;
     trace :=
       [Printed (nl +:+ "🔄 Searching for organizations...");
        Invoked_find_recipients (Text.strip group1) (set_cached [] self)] |}.
Proof. intros Hloc Hreply. unfold search. by rewrite Hloc, Hreply. Qed.

(** C4: a message with a search keyword, routed with no step pending, finds
    the cache already emptied at the moment the lookup client is called (and
    emptied as well when no location is found and no call is made).  When the
    reply of the lookup has no recipients (an error payload, or an empty
    result) the cache stays empty, the context is untouched, so the state
    stays NONE, and the text returned is the failure message with the reason
    given by the reply.  When the lookup raises instead of replying, the
    cache is empty and the context untouched just the same. *)
Theorem failed_search_leaves_no_cache E message self sheet :
  pendingStep self = NONE ->
  search_intent (Text.strip (Text.lower message)) = true ->
  let t := process_message E message self sheet in
  (forall location at_call,
     Invoked_find_recipients location at_call ∈ trace t ->
     cached_organizations at_call = [])
  /\ (Text.search_in message = None ->
      tool_calls (trace t) = []
      /\ cached_organizations (after t) = []
      /\ reply t = Ok msg_clarify)
  /\ (forall group1,
        Text.search_in message = Some group1 ->
        tool_calls (trace t)
        = [Invoked_find_recipients (Text.strip group1) (set_cached [] self)]
        /\ (forall result_data,
              find_recipients E (Text.strip group1) = Ok result_data ->
              no_recipients result_data ->
              cached_organizations (after t) = []
              /\ conversation_context (after t) = conversation_context self
              /\ pendingStep (after t) = NONE
              /\ reply t
                 = Ok (msg_not_found
                         (default "Unknown issue" (Lookup.error result_data))))
        /\ (forall e,
              find_recipients E (Text.strip group1) = Raise e ->
              cached_organizations (after t) = []
              /\ conversation_context (after t) = conversation_context self
              /\ pendingStep (after t) = NONE
              /\ reply t = Raise e)).
Proof.
  intros Hp Hkw t. subst t. rewrite (route_search _ _ _ _ Hp Hkw).
  split; [|split].
  - intros location at_call Hin.
    search_cases E; cbn in Hin; decompose_list_elem_of; by simplify_eq/=.
  - intros Hloc. unfold search. by rewrite Hloc.
  - intros group1 Hloc. split; [|split].
    + search_cases E; by simplify_eq/=.
    + intros result_data Hreply Hnone.
      rewrite (search_not_found _ _ _ _ _ _ Hloc Hreply Hnone). cbn.
      by rewrite pending_set_cached.
    + intros e Hraise. rewrite (search_raised _ _ _ _ _ _ Hloc Hraise). cbn.
      by rewrite pending_set_cached.
Qed.

Lemma failed_search_leaves_no_cache_witness :
  let t := process_message Samples.unconfigured "Where can I donate in Delhi?"
             Samples.rested [] in
  cached_organizations (after t) = []
  /\ pendingStep (after t) = NONE
  /\ reply t = Ok (msg_not_found "Google API key not found.").
Proof.
  pose proof (failed_search_leaves_no_cache Samples.unconfigured
                "Where can I donate in Delhi?" Samples.rested []
                ltac:(vm_compute; reflexivity) ltac:(vm_compute; reflexivity)) as H.
  cbv zeta in H. destruct H as (_ & _ & H).
  destruct (H "Delhi?" ltac:(reflexivity)) as (_ & Hfail & _).
  destruct (Hfail _ eq_refl ltac:(left; reflexivity))
    as (Hcache & _ & Hnone & Hreply).
  split; [exact Hcache | split; [exact Hnone | exact Hreply]].
Defined.

(** ** Routing twice *)

Lemma search_without_location E message self sheet :
  Text.search_in message = None ->
  search E message self sheet =
  {| reply := Ok msg_clarify; after := set_cached [] self; sheet_after := sheet;
     trace := [Printed (nl +:+ "🔄 Searching for organizations...")] |}.
Proof. intros Hloc. unfold search. by rewrite Hloc. Qed.

Lemma search_quiet E message self sheet :
  tool_calls (trace (search E message self sheet)) = [] ->
  Text.search_in message = None.
Proof.
  intros Hquiet. destruct (Text.search_in message) as [group1|] eqn:Hloc; [|done].
  exfalso. revert Hquiet. unfold search. rewrite Hloc.
  destruct (find_recipients E _) as [result_data|e]; [|done].
  by destruct (Lookup.recipients _) as [[|org orgs]|].
Qed.

(** C8: with no step pending, if routing a message calls no tool (no lookup,
    no log), then routing the same message again, in any environment, gives
    the same text and the same printed output, and changes nothing more. *)
Theorem idle_route_twice E E' message self sheet :
  pendingStep self = NONE ->
  let t1 := process_message E message self sheet in
  tool_calls (trace t1) = [] ->
  let t2 := process_message E' message (after t1) (sheet_after t1) in
  reply t2 = reply t1 /\ trace t2 = trace t1
  /\ after t2 = after t1 /\ sheet_after t2 = sheet_after t1.
Proof.
  intros Hp t1 Hquiet t2. subst t1 t2.
  destruct (search_intent (Text.strip (Text.lower message))) eqn:Hkw.
  - rewrite (route_search _ _ _ _ Hp Hkw) in *.
    apply search_quiet in Hquiet.
    rewrite (search_without_location E _ _ _ Hquiet). cbn [after sheet_after].
    rewrite route_search by done.
    by rewrite (search_without_location E' _ _ _ Hquiet).
  - rewrite (route_help _ _ _ _ Hp Hkw). cbn [after sheet_after].
    by rewrite (route_help _ _ _ _ Hp Hkw).
Qed.

Lemma idle_route_twice_witness :
  let t1 := process_message Samples.online "find food" Samples.rested [] in
  let t2 := process_message Samples.unconfigured "find food" (after t1)
              (sheet_after t1) in
  reply t2 = reply t1 /\ trace t2 = trace t1
  /\ after t2 = after t1 /\ sheet_after t2 = sheet_after t1.
Proof.
  apply (idle_route_twice Samples.online Samples.unconfigured "find food"
           Samples.rested []); vm_compute; reflexivity.
Defined.

(** ** The invariant of the conversation *)

Ltac read_context :=
  unfold flow_invariant, flag_count, is_set; cbn;
  autorewrite with flags;
  repeat (rewrite lookup_insert_eq || rewrite lookup_insert_ne by discriminate);
  rewrite ?lookup_empty.

Lemma flow_invariant_init : flow_invariant init.
Proof.
  read_context. split; [cbn; lia|]. split; [by intros [? ?]|done].
Qed.

Lemma flow_invariant_cleared self : flow_invariant (set_context ∅ self).
Proof.
  read_context. split; [cbn; lia|]. split; [by intros [? ?]|done].
Qed.

Lemma flow_invariant_step E message self sheet :
  flow_invariant self ->
  flow_invariant (after (process_message E message self sheet)).
Proof.
  intros (Hcount & Hphone & Hname).
  destruct (pendingStep self) eqn:Hp.
  - destruct (search_intent (Text.strip (Text.lower message))) eqn:Hkw.
    + rewrite (route_search _ _ _ _ Hp Hkw). unfold search.
      apply pending_none in Hp as (Hn & Hph & Hc).
      destruct (Text.search_in message) as [group1|]; [|done].
      destruct (find_recipients E _) as [result_data|e]; [|done].
      destruct (Lookup.recipients _) as [[|org orgs]|]; [done| |done].
      read_context. rewrite Hn, Hph. split; [cbn; lia|]. split; [done|done].
    + by rewrite (route_help _ _ _ _ Hp Hkw).
  - destruct (decide (Text.strip (Text.lower message) = "yes")) as [Hyes|Hno].
    + rewrite (route_confirmed _ _ _ _ Hp Hyes).
      apply pending_confirmation in Hp as (Hn & Hph & Hc).
      read_context. rewrite Hph. split; [cbn; lia|]. split; [done|done].
    + rewrite (route_declined _ _ _ _ Hp Hno). apply flow_invariant_cleared.
  - rewrite (route_name _ _ _ _ Hp).
    apply pending_name in Hp. unfold flag_count in Hcount. rewrite Hp in Hcount.
    destruct (truthy_get (conversation_context self) "awaiting_log_confirmation")
      eqn:Hc; [cbn in Hcount; lia|].
    read_context. rewrite Hc. split; [cbn; lia|]. split; [done|eauto].
  - rewrite (route_phone _ _ _ _ Hp). unfold answer_phone.
    destruct (log_donation_request _ _ _ _ _). apply flow_invariant_cleared.
Qed.

Lemma reachable_invariant self sheet : reachable self sheet -> flow_invariant self.
Proof.
  induction 1; [apply flow_invariant_init | by apply flow_invariant_step].
Qed.

(** C6: in every state reached from the initial one by routing messages, at
    most one of the three pending-step flags is on, and a phone number is in
    the context only if a name is; and at the one moment a phone number is
    stored, when the next turn calls the ledger, the name is there already
    and still at most one flag is on. *)
Theorem one_step_pending self sheet :
  reachable self sheet ->
  flag_count self <= 1
  /\ (is_set self "user_phone" -> is_set self "user_name")
  /\ (forall E message user_name user_phone orgs at_call,
        Invoked_log_donation_request user_name user_phone orgs at_call
          ∈ trace (process_message E message self sheet) ->
        is_set at_call "user_phone" /\ is_set at_call "user_name"
        /\ flag_count at_call <= 1).
Proof.
  intros (Hcount & Hphone & Hname)%reachable_invariant.
  split; [done|]. split; [done|].
  intros E message user_name user_phone orgs at_call Hin.
  destruct (pendingStep self) eqn:Hp.
  - destruct (search_intent (Text.strip (Text.lower message))) eqn:Hkw.
    + rewrite (route_search _ _ _ _ Hp Hkw) in Hin.
      search_cases E; cbn in Hin; decompose_list_elem_of; done.
    + rewrite (route_help _ _ _ _ Hp Hkw) in Hin. by apply elem_of_nil in Hin.
  - destruct (decide (Text.strip (Text.lower message) = "yes")) as [Hyes|Hno].
    + rewrite (route_confirmed _ _ _ _ Hp Hyes) in Hin. by apply elem_of_nil in Hin.
    + rewrite (route_declined _ _ _ _ Hp Hno) in Hin. by apply elem_of_nil in Hin.
  - rewrite (route_name _ _ _ _ Hp) in Hin. by apply elem_of_nil in Hin.
  - rewrite (route_phone _ _ _ _ Hp) in Hin. unfold answer_phone in Hin.
    destruct (log_donation_request _ _ _ _ _). cbn in Hin.
    apply pending_phone in Hp as (Hn & Hph).
    decompose_list_elem_of; simplify_eq/=.
    unfold flag_count in Hcount. rewrite Hn, Hph in Hcount.
    destruct (truthy_get (conversation_context self) "awaiting_log_confirmation")
      eqn:Hc; [cbn in Hcount; lia|].
    read_context. rewrite Hc, Hn.
    split; [done|]. split; [by apply Hname | cbn; lia].
Qed.

Lemma one_step_pending_witness :
  flag_count
    (after (process_message Samples.online "I want to donate in Delhi" init []))
  <= 1.
Proof.
  exact (proj1 (one_step_pending _ _
                  (reach_step init [] Samples.online "I want to donate in Delhi"
                     (reach_init [])))).
Defined.

(** ** The order of the decisions *)

Lemma no_lookup_in (tr : list event) :
  tool_calls tr = [] ->
  forall location at_call, Invoked_find_recipients location at_call ∉ tr.
Proof.
  intros Hquiet location at_call Hin.
  assert (Hcall : Invoked_find_recipients location at_call ∈ tool_calls tr).
  { unfold tool_calls. apply list_elem_of_filter. by split. }
  rewrite Hquiet in Hcall. by apply elem_of_nil in Hcall.
Qed.

Lemma answer_phone_trace E message self sheet :
  trace (answer_phone E message self sheet)
  = [Printed (nl +:+ "⚙️ Logging your request to Google Sheets...");
     Invoked_log_donation_request
       (get_or_none (conversation_context self) "user_name") (PStr message)
       (cached_organizations self)
       (set_context
          (<["awaiting_user_phone" := PBool false]>
             (<["user_phone" := PStr message]> (conversation_context self)))
          self)].
Proof.
  unfold answer_phone. rewrite answer_phone_name, answer_phone_phone.
  by destruct (log_donation_request _ _ _ _ _).
Qed.

Lemma search_calls_lookup E message self sheet group1 :
  Text.search_in message = Some group1 ->
  tool_calls (trace (search E message self sheet))
  = [Invoked_find_recipients (Text.strip group1) (set_cached [] self)].
Proof.
  intros Hloc. unfold search. rewrite Hloc.
  destruct (find_recipients E _) as [result_data|e]; [|done].
  by destruct (Lookup.recipients _) as [[|org orgs]|].
Qed.

(** C5 as worded does not hold: the marker of a location is not the text
    "in " with a space.  In "donate in<TAB>Delhi" no "in " occurs, in any
    case of the letters, yet the message is not answered by the clarification
    prompt: the lookup client is called with "Delhi". *)
Lemma tab_marks_location :
  let message := "donate in" +:+ tab +:+ "Delhi" in
  let t := process_message Samples.online message Samples.rested [] in
  pendingStep Samples.rested = NONE
  /\ has_keyword message
  /\ ~ occurs_ci "in " message
  /\ reply t ≠ Ok msg_clarify
  /\ tool_calls (trace t)
     = [Invoked_find_recipients "Delhi" (set_cached [] Samples.rested)].
Proof.
  cbv zeta. split; [reflexivity|]. split; [|split; [|split]].
  - apply search_intent_spec. vm_compute. reflexivity.
  - intros H%contains_lower. vm_compute in H. discriminate H.
  - intros H. vm_compute in H. discriminate H.
  - vm_compute. reflexivity.
Qed.

(** C5, amended: the router decides in a fixed order, the first match
    winning.
    (a) When a step is pending, the message, whatever it says, is the answer
    to that step and no lookup is made: it is stored as the name; or it is
    stored as the phone and logged, the ledger client being called once with
    the stored name, that phone and the cache, after which the context is
    empty, the sheet is what the call left and the text returned is the one
    of the ledger's reply; or it is read as the yes/no of the confirmation.
    (b) Otherwise, a message that has one of the keywords "find", "donate",
    "where can", case ignored, takes the search path.  The location is what
    the pattern [in\s(.+)], case ignored, captures: when the pattern finds no
    match the clarification prompt is returned and no tool is called; when it
    finds one, the lookup client is called once, with the trimmed capture.
    (c) Otherwise the help text is returned, and the chatbot (flags, name,
    phone, cache) and the sheet are left as they were. *)
Theorem decision_order E message self sheet :
  let t := process_message E message self sheet in
  (pendingStep self ≠ NONE ->
     (forall location at_call, Invoked_find_recipients location at_call ∉ trace t)
     /\ match pendingStep self with
        | AWAITING_NAME =>
            conversation_context (after t) !! "user_name" = Some (PStr message)
            /\ pendingStep (after t) = AWAITING_PHONE
            /\ reply t = Ok msg_name_thanks
        | AWAITING_PHONE =>
            let user_name := get_or_none (conversation_context self) "user_name" in
            let outcome :=
              log_donation_request E user_name (PStr message)
                (cached_organizations self) sheet in
            trace t
            = [Printed (nl +:+ "⚙️ Logging your request to Google Sheets...");
               Invoked_log_donation_request user_name (PStr message)
                 (cached_organizations self)
                 (set_context
                    (<["awaiting_user_phone" := PBool false]>
                       (<["user_phone" := PStr message]>
                          (conversation_context self)))
                    self)]
            /\ after t = set_context ∅ self
            /\ sheet_after t = outcome.2
            /\ ((outcome.1 = ledger_success
                 /\ reply t
                    = Ok ("✅ " +:+ "Request logged successfully in the Google Sheet."))
                \/ (exists text,
                      outcome.1 = ledger_error text
                      /\ reply t = Ok ("❌ Error: " +:+ text)))
        | AWAITING_LOG_CONFIRMATION =>
            if bool_decide (Text.strip (Text.lower message) = "yes")
            then reply t = Ok msg_ask_name /\ pendingStep (after t) = AWAITING_NAME
            else reply t = Ok msg_declined /\ pendingStep (after t) = NONE
        | NONE => True
        end)
  /\ (pendingStep self = NONE -> has_keyword message ->
      t = search E message self sheet
      /\ (Text.search_in message = None ->
          reply t = Ok msg_clarify /\ tool_calls (trace t) = [])
      /\ (forall group1,
            Text.search_in message = Some group1 ->
            tool_calls (trace t)
            = [Invoked_find_recipients (Text.strip group1) (set_cached [] self)]))
  /\ (pendingStep self = NONE -> ~ has_keyword message ->
      reply t = Ok msg_help /\ after t = self /\ sheet_after t = sheet
      /\ trace t = []).
Proof.
  intros t. subst t. split; [|split].
  - intros Hpending. destruct (pendingStep self) eqn:Hp; [done| | |].
    + case_bool_decide as Hm.
      * rewrite (route_confirmed _ _ _ _ Hp Hm). cbn [trace after reply].
        split; [by apply no_lookup_in|]. split; [done|apply confirmed_then_name].
      * rewrite (route_declined _ _ _ _ Hp Hm). cbn [trace after reply].
        split; [by apply no_lookup_in|]. split; [done|apply pending_cleared].
    + rewrite (route_name _ _ _ _ Hp). cbn [trace after reply].
      split; [by apply no_lookup_in|].
      split; [|split; [apply name_then_phone|done]].
      cbn. rewrite !lookup_insert_ne by done. by rewrite lookup_insert_eq.
    + rewrite (route_phone _ _ _ _ Hp).
      destruct (answer_phone_turn E message self sheet) as (_ & Hafter & Hrest).
      split.
      * intros location s Hin. rewrite answer_phone_trace in Hin.
        decompose_list_elem_of; done.
      * cbv zeta. split; [apply answer_phone_trace|]. by split.
  - intros Hp Hkw%search_intent_spec. rewrite (route_search _ _ _ _ Hp Hkw).
    split; [done|]. split.
    + intros Hloc. by rewrite (search_without_location _ _ _ _ Hloc).
    + intros group1 Hloc. by apply search_calls_lookup.
  - intros Hp Hkw. rewrite route_help; [done|done|].
    destruct (search_intent _) eqn:Hs; [|done].
    by apply search_intent_spec in Hs.
Qed.

Lemma decision_order_witness :
  let t := process_message Samples.online "Hello there" Samples.rested [header_row] in
  reply t = Ok msg_help /\ after t = Samples.rested
  /\ sheet_after t = [header_row] /\ trace t = [].
Proof.
  pose proof (decision_order Samples.online "Hello there" Samples.rested
                [header_row]) as H.
  cbv zeta in H. destruct H as (_ & _ & H). apply H.
  - vm_compute. reflexivity.
  - intros Hkw%search_intent_spec. vm_compute in Hkw. discriminate Hkw.
Defined.

(** * Further properties of the code *)


(** ** The location read from a message *)

Section Location.
Implicit Types (s g rest : string).

Lemma one_line_app s1 s2 : one_line (s1 +:+ s2) = one_line s1 && one_line s2.
Proof.
  induction s1 as [|c s1 IH]; [done|].
  rewrite append_cons. cbn [one_line]. by rewrite IH, andb_assoc.
Qed.

Lemma dot_plus_spec s :
  exists rest,
    s = Text.dot_plus s +:+ rest
    /\ one_line (Text.dot_plus s) = true
    /\ (rest = EmptyString \/ exists r, rest = nl +:+ r).
Proof.
  induction s as [|c s (rest & Hs & Hline & Hrest)].
  - exists EmptyString. auto.
  - cbn [Text.dot_plus]. destruct (Text.code c =? 10)%N eqn:Hc.
    + exists (String c s). split; [done|]. split; [done|]. right. exists s.
      apply N.eqb_eq in Hc. unfold Text.code in Hc.
      apply (f_equal ascii_of_N) in Hc. rewrite ascii_N_embedding in Hc.
      by rewrite Hc.
    + exists rest. rewrite append_cons, <-Hs. split; [done|].
      split; [|done]. cbn [one_line]. by rewrite Hc.
Qed.

Lemma code_inj c n : Text.code c = n -> c = ascii_of_N n.
Proof.
  intros <-. unfold Text.code. by rewrite ascii_N_embedding.
Qed.

Lemma lower_char_i c : Text.ci_eq c "i" = true -> c = "i"%char \/ c = "I"%char.
Proof.
  intros H. apply bool_decide_eq_true in H. revert H.
  destruct c as [[] [] [] [] [] [] [] []]; vm_compute; intros H;
    try discriminate H; auto.
Qed.

Lemma lower_char_n c : Text.ci_eq c "n" = true -> c = "n"%char \/ c = "N"%char.
Proof.
  intros H. apply bool_decide_eq_true in H. revert H.
  destruct c as [[] [] [] [] [] [] [] []]; vm_compute; intros H;
    try discriminate H; auto.
Qed.

Lemma skip_i_inv s rest :
  Text.skip_i s = Some rest -> exists i, s = i +:+ rest /\ letter_i i = true.
Proof.
  destruct s as [|c s1]; [done|]. cbn [Text.skip_i].
  destruct (Text.ci_eq c "i") eqn:Hc.
  - intros [= ->]. exists (String c EmptyString). split; [done|].
    by apply lower_char_i in Hc as [-> | ->].
  - destruct s1 as [|d s2]; [done|].
    destruct ((Text.code c =? 196) && _)%N eqn:Hcd; [|done].
    intros [= ->]. exists (String c (String d EmptyString)). split; [done|].
    apply andb_true_iff in Hcd as [Hc196%N.eqb_eq%code_inj Hd%orb_true_iff].
    by destruct Hd as [->%N.eqb_eq%code_inj | ->%N.eqb_eq%code_inj]; subst c.
Qed.

Lemma skip_n_inv s rest :
  Text.skip_n s = Some rest -> exists n, s = n +:+ rest /\ letter_n n = true.
Proof.
  destruct s as [|c s1]; [done|]. cbn [Text.skip_n].
  destruct (Text.ci_eq c "n") eqn:Hc; [|done].
  intros [= ->]. exists (String c EmptyString). split; [done|].
  by apply lower_char_n in Hc as [-> | ->].
Qed.

Lemma match_in_here_spec s g :
  Text.match_in_here s = Some g ->
  exists i n w rest,
    s = i +:+ n +:+ w +:+ g +:+ rest
    /\ letter_i i = true /\ letter_n n = true /\ Text.is_white_char w = true
    /\ g ≠ EmptyString /\ one_line g = true
    /\ (rest = EmptyString \/ exists r, rest = nl +:+ r).
Proof.
  unfold Text.match_in_here.
  destruct (Text.skip_i s) as [s1|] eqn:Hi; [|done]. cbn.
  destruct (Text.skip_n s1) as [s2|] eqn:Hn; [|done]. cbn.
  destruct (Text.skip_white s2) as [tail|] eqn:Hw; [|done]. cbn.
  apply skip_i_inv in Hi as (i & -> & Hi).
  apply skip_n_inv in Hn as (n & -> & Hn).
  apply skip_white_inv in Hw as (w & -> & Hw & _).
  destruct (dot_plus_spec tail) as (rest & Htail & Hline & Hrest).
  destruct (Text.dot_plus tail) as [|c g'] eqn:Hg; [done|].
  intros [= <-]. exists i, n, w, rest. by rewrite <-Htail.
Qed.

(** What [re.search(r'in\s(.+)', message, re.IGNORECASE)] finds: group 1 is
    the rest of the line after a marker "in" and one white-space character;
    it is not empty and has no line feed. *)
Lemma search_in_spec message g :
  Text.search_in message = Some g ->
  exists pre i n w rest,
    message = pre +:+ i +:+ n +:+ w +:+ g +:+ rest
    /\ letter_i i = true /\ letter_n n = true /\ Text.is_white_char w = true
    /\ g ≠ EmptyString /\ one_line g = true
    /\ (rest = EmptyString \/ exists r, rest = nl +:+ r).
Proof.
  induction message as [|c message IH].
  - cbn [Text.search_in].
    destruct (Text.match_in_here EmptyString) as [g'|] eqn:Hhere; [|done].
    intros [= ->].
    apply match_in_here_spec in Hhere as (i & n & w & rest & Hs & H).
    by exists EmptyString, i, n, w, rest.
  - cbn [Text.search_in].
    destruct (Text.match_in_here (String c message)) as [g'|] eqn:Hhere.
    + intros [= ->].
      apply match_in_here_spec in Hhere as (i & n & w & rest & Hs & H).
      by exists EmptyString, i, n, w, rest.
    + intros (pre & i & n & w & rest & -> & H)%IH.
      by exists (String c pre), i, n, w, rest.
Qed.

(** Where a lookup call of a turn comes from. *)
Lemma lookup_event_origin E message self sheet location at_call :
  Invoked_find_recipients location at_call
    ∈ trace (process_message E message self sheet) ->
  pendingStep self = NONE
  /\ at_call = set_cached [] self
  /\ exists g, Text.search_in message = Some g /\ location = Text.strip g.
Proof.
  intros Hin. destruct (pendingStep self) eqn:Hp.
  - destruct (search_intent (Text.strip (Text.lower message))) eqn:Hkw.
    + rewrite (route_search _ _ _ _ Hp Hkw) in Hin.
      search_cases E; cbn in Hin; decompose_list_elem_of; simplify_eq/=; eauto.
    + rewrite (route_help _ _ _ _ Hp Hkw) in Hin. by apply elem_of_nil in Hin.
  - destruct (decide (Text.strip (Text.lower message) = "yes")) as [Hyes|Hno].
    + rewrite (route_confirmed _ _ _ _ Hp Hyes) in Hin. by apply elem_of_nil in Hin.
    + rewrite (route_declined _ _ _ _ Hp Hno) in Hin. by apply elem_of_nil in Hin.
  - rewrite (route_name _ _ _ _ Hp) in Hin. by apply elem_of_nil in Hin.
  - rewrite (route_phone _ _ _ _ Hp), answer_phone_trace in Hin.
    decompose_list_elem_of; simplify_eq/=.
Qed.

End Location.

(** X1: the location handed to the lookup client is cut out of the message:
    it follows a marker, which is one character that [i] matches with case
    ignored, one that [n] matches, and one white-space character, after some
    more white space at most; [strip] has nothing left to remove from it,
    and it has no line feed. *)
Theorem lookup_location_from_message E message self sheet location at_call :
  Invoked_find_recipients location at_call
    ∈ trace (process_message E message self sheet) ->
  Text.strip location = location
  /\ one_line location = true
  /\ exists pre i n w gap post,
       message = pre +:+ i +:+ n +:+ w +:+ gap +:+ location +:+ post
       /\ letter_i i = true /\ letter_n n = true
       /\ Text.is_white_char w = true /\ blank gap = true.
Proof.
  intros (_ & _ & g & Hg & ->)%lookup_event_origin.
  apply search_in_spec in Hg
    as (pre & i & n & w & rest & -> & Hi & Hn & Hw & _ & Hline & _).
  destruct (strip_split g) as (gap & post & Hsplit & Hgap & _).
  split; [apply strip_idem|]. split.
  - rewrite Hsplit, !one_line_app in Hline.
    by apply andb_true_iff in Hline as [_ [? _]%andb_true_iff].
  - exists pre, i, n, w, gap, (post +:+ rest).
    split; [|done]. rewrite Hsplit at 1. by rewrite !append_assoc.
Qed.

Lemma lookup_location_from_message_witness :
  let message := "Where can I donate In" +:+ nbsp +:+ "  New Delhi  " in
  Invoked_find_recipients "New Delhi" (set_cached [] init)
    ∈ trace (process_message Samples.online message init [])
  /\ Text.strip "New Delhi" = "New Delhi"
  /\ one_line "New Delhi" = true
  /\ exists pre i n w gap post,
       message = pre +:+ i +:+ n +:+ w +:+ gap +:+ "New Delhi" +:+ post
       /\ letter_i i = true /\ letter_n n = true
       /\ Text.is_white_char w = true /\ blank gap = true.
Proof.
  cbv zeta.
  assert (Hin : Invoked_find_recipients "New Delhi" (set_cached [] init)
                ∈ trace (process_message Samples.online
                           ("Where can I donate In" +:+ nbsp +:+ "  New Delhi  ")
                           init [])).
  { vm_compute. apply list_elem_of_further, list_elem_of_here. }
  split; [exact Hin|].
  exact (lookup_location_from_message Samples.online _ init [] "New Delhi"
           (set_cached [] init) Hin).
Defined.

(** X2: in AWAITING_LOG_CONFIRMATION the flow goes on to AWAITING_NAME
    exactly when the message is "yes" in any mix of upper and lower case,
    with nothing around it but what [strip] removes (white-space characters,
    those beyond ASCII included). *)
Theorem confirmation_accepts_padded_yes E message self sheet :
  pendingStep self = AWAITING_LOG_CONFIRMATION ->
  pendingStep (after (process_message E message self sheet)) = AWAITING_NAME
  <-> exists pre mid post,
        message = pre +:+ mid +:+ post
        /\ blank pre = true /\ blank post = true
        /\ Text.lower mid = "yes".
Proof.
  intros Hp. rewrite <-says_yes.
  destruct (decide (Text.strip (Text.lower message) = "yes")) as [Hyes|Hno].
  - rewrite (route_confirmed _ _ _ _ Hp Hyes). cbn [after].
    split; [done|]. intros _. apply confirmed_then_name.
  - rewrite (route_declined _ _ _ _ Hp Hno). cbn [after].
    rewrite pending_cleared. split; [done|]. intros Hyes. by destruct Hno.
Qed.

Lemma confirmation_accepts_padded_yes_witness :
  let message := nbsp +:+ " yEs " in
  pendingStep (after (process_message Samples.online message Samples.asked []))
  = AWAITING_NAME.
Proof.
  cbv zeta.
  apply (confirmation_accepts_padded_yes Samples.online _ Samples.asked []).
  - reflexivity.
  - exists (nbsp +:+ " "), "yEs", " ".
    repeat split; reflexivity.
Defined.

(** X3: with no step pending, a message with a keyword and a location whose
    lookup returns recipients replaces the cache by exactly those recipients,
    in their order, sets the confirmation flag and nothing else in the
    context, shows the listing, and leaves the sheet alone. *)
Theorem search_success E message self sheet g result_data found :
  pendingStep self = NONE ->
  search_intent (Text.strip (Text.lower message)) = true ->
  Text.search_in message = Some g ->
  find_recipients E (Text.strip g) = Ok result_data ->
  Lookup.recipients result_data = Some found ->
  found ≠ [] ->
  let t := process_message E message self sheet in
  cached_organizations (after t) = found
  /\ conversation_context (after t)
     = <["awaiting_log_confirmation" := PBool true]> (conversation_context self)
  /\ pendingStep (after t) = AWAITING_LOG_CONFIRMATION
  /\ reply t = Ok (msg_found (Text.strip g) found)
  /\ sheet_after t = sheet.
Proof.
  intros Hp Hkw Hg Hreply Hfound Hne t. subst t.
  rewrite (route_search _ _ _ _ Hp Hkw). unfold search.
  rewrite Hg, Hreply, Hfound.
  destruct found as [|org found]; [done|]. cbn.
  split; [done|]. split; [done|]. split; [|done].
  apply pending_none in Hp as (Hn & Hph & _).
  apply pending_confirmation. cbn. by autorewrite with flags.
Qed.

Lemma search_success_witness :
  let t := process_message Samples.online "Where can I donate in Delhi"
             Samples.rested [] in
  cached_organizations (after t) = [Samples.org1; Samples.org2]
  /\ pendingStep (after t) = AWAITING_LOG_CONFIRMATION.
Proof.
  destruct (search_success Samples.online "Where can I donate in Delhi"
              Samples.rested [] "Delhi"
              {| Lookup.recipients := Some [Samples.org1; Samples.org2];
                 Lookup.error := None; Lookup.api_error := None;
                 Lookup.message := None |}
              [Samples.org1; Samples.org2])
    as (Hcache & _ & Hp & _); try (vm_compute; reflexivity); [discriminate|].
  by split.
Defined.

(** ** What the ledger client writes *)

(** X4: a call of the ledger client only appends to the sheet.  When it
    reports success, what it appended is the header, if its read of the sheet
    returned no rows, followed by one row per organization.  When it reports
    an error, what it appended is some beginning of that, possibly nothing:
    the error reply does not tell how much was written. *)
Theorem log_appends_in_order E user_name user_phone organizations sheet :
  let rows := rows_to_add user_name user_phone (ctime E) organizations in
  let intended := header_if_empty (sheet_values E sheet) ++ rows in
  let outcome := log_donation_request E user_name user_phone organizations sheet in
  (outcome.1 = ledger_success /\ outcome.2 = sheet ++ intended)
  \/ (exists text written,
        outcome.1 = ledger_error text
        /\ outcome.2 = sheet ++ written
        /\ written `prefix_of` intended).
Proof.
  cbv zeta. unfold log_donation_request.
  assert (Hnil : forall (l : list row), sheet = sheet ++ [] /\ [] `prefix_of` l).
  { intros l. split; [by rewrite app_nil_r | apply prefix_nil]. }
  destruct (gspread E); cbn [negb]; [|right; eauto].
  destruct (environ_get E "GOOGLE_SHEET_ID") as [sid|]; [|right; eauto].
  unfold log_attempt, mbind, sheetM_bind, lift, get_all_values, append_row,
    append_rows, mret, sheetM_ret.
  destruct (from_json_keyfile_name E _ _) as [[]|e0];
    [|right; destruct e0; eauto].
  destruct (authorize E) as [[]|e0]; [|right; destruct e0; eauto].
  destruct (open_by_key E sid) as [[]|e0]; [|right; destruct e0; eauto].
  destruct (sheet_fault E GetAllValues) as [[e0 n0]|];
    [right; destruct e0; eauto|].
  destruct (sheet_values E sheet) as [|r0 values]; cbn [header_if_empty].
  - destruct (sheet_fault E AppendRow) as [[e0 n0]|].
    { right.
      assert (Hpre : take n0 [header_row]
                     `prefix_of` [header_row]
                                 ++ rows_to_add user_name user_phone (ctime E)
                                      organizations).
      { apply prefix_app_r. exists (drop n0 [header_row]).
        by rewrite take_drop. }
      destruct e0; cbn; eauto. }
    destruct (rows_to_add _ _ _ _) as [|r rows] eqn:Hrows; cbn.
    + by left.
    + destruct (sheet_fault E AppendRows) as [[e0 n0]|]; cbn.
      * right.
        assert (Hpre : [header_row] ++ take n0 (r :: rows)
                       `prefix_of` [header_row] ++ r :: rows).
        { apply prefix_app. exists (drop n0 (r :: rows)).
          by rewrite take_drop. }
        rewrite <-(app_assoc sheet [header_row]).
        destruct e0; cbn; eauto.
      * left. by rewrite <-app_assoc.
  - destruct (rows_to_add _ _ _ _) as [|r rows] eqn:Hrows; cbn.
    + left. by rewrite app_nil_r.
    + destruct (sheet_fault E AppendRows) as [[e0 n0]|]; cbn; [|by left].
      right.
      assert (Hpre : take n0 (r :: rows) `prefix_of` r :: rows).
      { exists (drop n0 (r :: rows)). by rewrite take_drop. }
      destruct e0; cbn; eauto.
Qed.

(** X5: of two calls that succeed one after the other, each appends its
    rows, after a header when its own read of the sheet returned no rows;
    nothing is merged or skipped, so the same request logged twice is on the
    sheet twice.  When the second read returns a row, as it does once the
    first call has written one, no second header is written. *)
Theorem log_twice E1 E2 name1 phone1 orgs1 name2 phone2 orgs2 sheet :
  ledger_ready E1 -> ledger_ready E2 ->
  let first := log_donation_request E1 name1 phone1 orgs1 sheet in
  let second := log_donation_request E2 name2 phone2 orgs2 first.2 in
  let rows1 := rows_to_add name1 phone1 (ctime E1) orgs1 in
  let rows2 := rows_to_add name2 phone2 (ctime E2) orgs2 in
  first.1 = ledger_success
  /\ second.1 = ledger_success
  /\ first.2 = sheet ++ header_if_empty (sheet_values E1 sheet) ++ rows1
  /\ second.2
     = sheet ++ header_if_empty (sheet_values E1 sheet) ++ rows1
         ++ header_if_empty (sheet_values E2 first.2) ++ rows2
  /\ (sheet_values E2 first.2 ≠ [] ->
      second.2
      = sheet ++ header_if_empty (sheet_values E1 sheet) ++ rows1 ++ rows2).
Proof.
  intros H1 H2. cbv zeta.
  rewrite (log_when_ready _ _ _ _ _ H1). cbn [fst snd].
  rewrite (log_when_ready _ _ _ _ _ H2). cbn [fst snd].
  split; [done|]. split; [done|]. split; [done|]. split.
  - by rewrite <-!app_assoc.
  - intros Hread.
    destruct (sheet_values E2 _) as [|r0 values]; [done|].
    cbn [header_if_empty app]. by rewrite <-!app_assoc.
Qed.

Lemma log_twice_witness :
  let first :=
    log_donation_request Samples.online (PStr "Asha") (PStr "555-0100")
      [Samples.org1] [] in
  let second :=
    log_donation_request Samples.online (PStr "Asha") (PStr "555-0100")
      [Samples.org1] first.2 in
  second.2
  = header_row
      :: rows_to_add (PStr "Asha") (PStr "555-0100") (ctime Samples.online)
           [Samples.org1]
      ++ rows_to_add (PStr "Asha") (PStr "555-0100") (ctime Samples.online)
           [Samples.org1].
Proof.
  cbv zeta.
  destruct (log_twice Samples.online Samples.online (PStr "Asha")
              (PStr "555-0100") [Samples.org1] (PStr "Asha")
              (PStr "555-0100") [Samples.org1] [] online_ready online_ready)
    as (_ & _ & _ & _ & Honce).
  rewrite Honce; [reflexivity|]. vm_compute. discriminate.
Defined.

(** X6: when the read of an empty sheet returns no rows and the worksheet
    accepts the header but raises on the rows, the call reports an error and
    the header stays on the sheet, with whatever rows the failed call got
    through: a failed call can leave a write behind. *)
Theorem header_survives_failed_append E user_name user_phone organizations e
    written sid :
  gspread E = true ->
  environ_get E "GOOGLE_SHEET_ID" = Some sid ->
  from_json_keyfile_name E "service_account.json" sheets_scope = Ok tt ->
  authorize E = Ok tt ->
  open_by_key E sid = Ok tt ->
  sheet_fault E GetAllValues = None ->
  sheet_values E [] = [] ->
  sheet_fault E AppendRow = None ->
  sheet_fault E AppendRows = Some (e, written) ->
  organizations ≠ [] ->
  let outcome := log_donation_request E user_name user_phone organizations [] in
  (exists text, outcome.1 = ledger_error text)
  /\ outcome.2
     = header_row
         :: take written
              (rows_to_add user_name user_phone (ctime E) organizations).
Proof.
  intros Hlib Hid Hkey Hauth Hopen Hget Hread Hrow Hrows Hne. cbv zeta.
  unfold log_donation_request, log_attempt. rewrite Hlib, Hid. cbn [negb].
  unfold mbind, sheetM_bind, lift, get_all_values, append_row, append_rows.
  rewrite Hkey, Hauth, Hopen, Hget, Hread, Hrow.
  destruct organizations as [|org orgs]; [done|]. cbn. rewrite Hrows.
  destruct e; cbn; eauto.
Qed.

Lemma header_survives_failed_append_witness :
  (log_donation_request Samples.append_fails (PStr "Asha") (PStr "555-0100")
     [Samples.org1] []).2
  = [header_row].
Proof.
  refine (proj2 (header_survives_failed_append Samples.append_fails (PStr "Asha")
                   (PStr "555-0100") [Samples.org1]
                   (Exception "APIError: [429]: Quota exceeded") 0 "sheet-1"
                   _ _ _ _ _ _ _ _ _ _));
    try reflexivity; discriminate.
Defined.

(** ** What is shown and what is logged of an organization *)

Lemma format_from_cons i org rest :
  format_from i (org :: rest) = listing_block i org +:+ format_from (S i) rest.
Proof. unfold listing_block. cbn [format_from]. by rewrite !append_assoc. Qed.

Lemma format_from_lookup i orgs k org :
  orgs !! k = Some org ->
  exists pre post,
    format_from i orgs = pre +:+ listing_block (i + k) org +:+ post.
Proof.
  revert i k. induction orgs as [|o orgs IH]; intros i [|k] Hk; try done.
  - injection Hk as ->. exists EmptyString, (format_from (S i) orgs).
    by rewrite Nat.add_0_r, format_from_cons.
  - destruct (IH (S i) k Hk) as (pre & post & Hrest).
    exists (listing_block i o +:+ pre), post.
    rewrite format_from_cons, Hrest, append_assoc.
    by replace (i + S k) with (S i + k) by lia.
Qed.

Lemma format_from_rating r i orgs :
  format_from i (map (with_rating r) orgs) = format_from i orgs.
Proof.
  revert i. induction orgs as [|org orgs IH]; intros i; [done|].
  cbn [map]. rewrite !format_from_cons, IH. by destruct org.
Qed.

(** X7: the rating that the lookup fetches is never used: the listing shown
    to the user does not depend on it, and the rows written to the sheet
    depend neither on it nor on the address. *)
Theorem rating_never_shown_or_logged r a user_name user_phone timestamp orgs :
  format_organizations (map (with_rating r) orgs) = format_organizations orgs
  /\ rows_to_add user_name user_phone timestamp
       (map (fun org => with_address a (with_rating r org)) orgs)
     = rows_to_add user_name user_phone timestamp orgs.
Proof.
  split.
  - unfold format_organizations. destruct orgs as [|org orgs]; [done|].
    cbn [map]. by rewrite <-(format_from_rating r 1 (org :: orgs)).
  - unfold rows_to_add. rewrite map_map. apply map_ext. by intros [].
Qed.

(** X8: the listing has, for the organization at position [k] of the list
    (from 0), the block of four lines numbered [k + 1] with its name, address,
    phone and website. *)
Theorem listing_shows_each orgs k org :
  orgs !! k = Some org ->
  exists pre post,
    format_organizations orgs = pre +:+ listing_block (S k) org +:+ post.
Proof.
  intros Hk. unfold format_organizations.
  destruct orgs as [|o orgs]; [done|].
  exact (format_from_lookup 1 (o :: orgs) k org Hk).
Qed.

Lemma listing_shows_each_witness :
  exists pre post,
    format_organizations [Samples.org1; Samples.org2]
    = pre +:+ listing_block 2 Samples.org2 +:+ post.
Proof.
  exact (listing_shows_each [Samples.org1; Samples.org2] 1 Samples.org2 eq_refl).
Defined.

(** ** What the lookup client returns *)

Lemma detailed_recipients_all gmaps (details : string -> place_details) places :
  (forall pid, pid ∈ usable_ids places ->
     place gmaps pid place_fields = Ok (details pid)) ->
  detailed_recipients gmaps places
  = Ok (map (fun pid => recipient_of (details pid)) (usable_ids places)).
Proof.
  induction places as [|p places IH]; intros Hall; [done|].
  cbn [detailed_recipients usable_ids] in *.
  destruct (place_id p) as [[|c pid]|]; [by apply IH| |by apply IH].
  rewrite Hall by apply list_elem_of_here.
  rewrite IH by (intros; apply Hall; by apply list_elem_of_further).
  done.
Qed.

Lemma detailed_recipients_raises gmaps places pid e :
  pid ∈ usable_ids places ->
  place gmaps pid place_fields = Raise e ->
  exists e', detailed_recipients gmaps places = Raise e'.
Proof.
  induction places as [|p places IH]; intros Hin Hraise.
  - by apply elem_of_nil in Hin.
  - cbn [detailed_recipients usable_ids] in *.
    destruct (place_id p) as [[|c pid']|]; [by apply IH| |by apply IH].
    unfold mbind, result_bind.
    destruct (place gmaps (String c pid') place_fields) as [d|e1] eqn:Hp;
      [|by eexists].
    apply elem_of_cons in Hin as [->|Hin]; [congruence|].
    destruct (IH Hin Hraise) as [e' ->]. by eexists.
Qed.

(** X9: when the key is set, the client is built, the location is
    geocoded, the nearby search returns and every details call made returns,
    the recipients are the places with an id among the first five results,
    in their order, each built from its details; places without an id still
    count among the five.  When none of the five has an id the reply is the
    "message" one. *)
Theorem lookup_recipients_content E location key gmaps hit hits places
    (details : string -> place_details) :
  environ_get E "GOOGLE_API_KEY" = Some key ->
  Client E key = Ok gmaps ->
  geocode gmaps location = Ok (hit :: hits) ->
  places_nearby gmaps hit 8000 "food bank OR charity OR food donation"
  = Ok places ->
  (forall pid, pid ∈ usable_ids (take 5 places) ->
     place gmaps pid place_fields = Ok (details pid)) ->
  find_recipients E location
  = Ok match usable_ids (take 5 places) with
       | [] =>
           {| Lookup.recipients := None; Lookup.error := None;
              Lookup.api_error := None;
              Lookup.message :=
                Some "No organizations found via Google Places API." |}
       | ids =>
           {| Lookup.recipients :=
                Some (map (fun pid => recipient_of (details pid)) ids);
              Lookup.error := None; Lookup.api_error := None;
              Lookup.message := None |}
       end.
Proof.
  intros Hkey Hclient Hgeo Hnear Hall. unfold find_recipients, find_with.
  rewrite Hkey, Hclient. unfold mbind, result_bind, mret, result_ret.
  rewrite Hgeo, Hnear.
  rewrite (detailed_recipients_all _ details _ Hall).
  by destruct (usable_ids (take 5 places)).
Qed.

Lemma lookup_recipients_content_witness :
  find_recipients Samples.online "Delhi"
  = Ok {| Lookup.recipients := Some [Samples.org1; Samples.org2];
          Lookup.error := None; Lookup.api_error := None;
          Lookup.message := None |}.
Proof.
  rewrite (lookup_recipients_content Samples.online "Delhi" "key-1"
             Samples.two_places Samples.delhi []
             [ {| place_id := Some "p1" |}; {| place_id := None |};
               {| place_id := Some "p2" |} ]
             Samples.details_of); reflexivity.
Defined.

(** X10: one failing details call loses the whole search: if, among the
    first five results, a place with an id makes the details call raise, the
    reply is the "api_error" one, whatever the other places gave. *)
Theorem lookup_all_or_nothing E location key gmaps hit hits places pid e :
  environ_get E "GOOGLE_API_KEY" = Some key ->
  Client E key = Ok gmaps ->
  geocode gmaps location = Ok (hit :: hits) ->
  places_nearby gmaps hit 8000 "food bank OR charity OR food donation"
  = Ok places ->
  pid ∈ usable_ids (take 5 places) ->
  place gmaps pid place_fields = Raise e ->
  exists e',
    find_recipients E location
    = Ok {| Lookup.recipients := None; Lookup.error := Some (str_exn e');
            Lookup.api_error := Some true; Lookup.message := None |}.
Proof.
  intros Hkey Hclient Hgeo Hnear Hin Hraise. unfold find_recipients, find_with.
  rewrite Hkey, Hclient. unfold mbind, result_bind, mret, result_ret.
  rewrite Hgeo, Hnear.
  destruct (detailed_recipients_raises _ _ _ _ Hin Hraise) as [e' ->].
  by exists e'.
Qed.

Lemma lookup_all_or_nothing_witness :
  exists e',
    find_recipients Samples.flaky "Delhi"
    = Ok {| Lookup.recipients := None; Lookup.error := Some (str_exn e');
            Lookup.api_error := Some true; Lookup.message := None |}.
Proof.
  apply (lookup_all_or_nothing Samples.flaky "Delhi" "key-1" Samples.p2_fails
           Samples.delhi []
           [ {| place_id := Some "p1" |}; {| place_id := Some "p2" |} ]
           "p2" (Exception "REQUEST_DENIED")); try reflexivity.
  vm_compute. repeat constructor.
Defined.

(** ** The states of a conversation *)

Lemma find_recipients_at_most_five E location result_data found :
  find_recipients E location = Ok result_data ->
  Lookup.recipients result_data = Some found ->
  found ≠ [] /\ length found <= 5.
Proof.
  unfold find_recipients, find_with.
  destruct (environ_get E "GOOGLE_API_KEY") as [api_key|];
    [|by intros [= <-]].
  unfold mbind, result_bind, mret, result_ret.
  destruct (Client E api_key) as [gmaps|e0]; [|done].
  destruct (geocode _ location) as [[|lat_lng hits]|e]; [by intros [= <-]| |by intros [= <-]].
  destruct (places_nearby _ lat_lng _ _) as [places|e]; [|by intros [= <-]].
  destruct (detailed_recipients _ (take 5 places)) as [[|org orgs]|e] eqn:Hd;
    [by intros [= <-]| |by intros [= <-]].
  intros [= <-]. cbn. intros [= <-]. split; [done|].
  apply detailed_recipients_length in Hd. rewrite length_take in Hd. lia.
Qed.

Lemma named_context name :
  <["awaiting_user_phone" := PBool true]>
    (<["awaiting_user_name" := PBool false]>
       (<["user_name" := PStr name]>
          (<["awaiting_user_name" := PBool true]>
             (<["awaiting_log_confirmation" := PBool false]>
                (∅ : gmap string pyval)))))
  = <["awaiting_user_phone" := PBool true]>
      (<["awaiting_user_name" := PBool false]>
         (<["user_name" := PStr name]>
            (<["awaiting_log_confirmation" := PBool false]> ∅))).
Proof.
  apply map_eq. intros k. rewrite !lookup_insert.
  repeat case_decide; simplify_eq; done.
Qed.

Lemma flow_context_pending self :
  flow_context (conversation_context self) ->
  pendingStep self ≠ NONE -> conversation_context self ≠ ∅.
Proof.
  intros _ Hp Hctx. apply Hp, pending_none. rewrite Hctx.
  by autorewrite with flags.
Qed.

(** What every turn keeps: the context has one of the four forms of the
    flow, the cache holds at most five organizations, and it is not empty
    while a step is pending. *)
Lemma conversation_shape_step E message self sheet :
  flow_context (conversation_context self)
  /\ length (cached_organizations self) <= 5
  /\ (conversation_context self ≠ ∅ -> cached_organizations self ≠ []) ->
  let self' := after (process_message E message self sheet) in
  flow_context (conversation_context self')
  /\ length (cached_organizations self') <= 5
  /\ (conversation_context self' ≠ ∅ -> cached_organizations self' ≠ []).
Proof.
  intros (Hctx & Hlen & Hne). cbv zeta.
  destruct self as [ctx cache]. cbn in Hctx, Hlen, Hne.
  destruct Hctx as [| | |name].
  - assert (Hp : pendingStep {| conversation_context := ∅;
                                cached_organizations := cache |} = NONE)
      by (apply pending_none; cbn; by autorewrite with flags).
    destruct (search_intent (Text.strip (Text.lower message))) eqn:Hkw.
    + rewrite (route_search _ _ _ _ Hp Hkw). unfold search.
      destruct (Text.search_in message) as [g|];
        [|cbn; split; [constructor|split; [lia|done]]].
      destruct (find_recipients E _) as [result_data|e] eqn:Hreply;
        [|cbn; split; [constructor|split; [lia|done]]].
      destruct (Lookup.recipients result_data) as [found|] eqn:Hfound;
        [|cbn; split; [constructor|split; [lia|done]]].
      destruct (find_recipients_at_most_five _ _ _ _ Hreply Hfound)
        as [Hsome Hfive].
      destruct found as [|org found]; [done|].
      cbn. split; [constructor|]. split; [exact Hfive|done].
    + rewrite (route_help _ _ _ _ Hp Hkw). cbn.
      split; [constructor|]. split; [lia|done].
  - assert (Hp : pendingStep
                   {| conversation_context :=
                        <["awaiting_log_confirmation" := PBool true]> ∅;
                      cached_organizations := cache |}
                 = AWAITING_LOG_CONFIRMATION)
      by (apply pending_confirmation; cbn; by autorewrite with flags).
    destruct (decide (Text.strip (Text.lower message) = "yes")) as [Hyes|Hno].
    + rewrite (route_confirmed _ _ _ _ Hp Hyes). cbn.
      rewrite insert_insert_eq. split; [constructor|]. split; [lia|].
      intros _. apply Hne. intros Hempty.
      by apply (f_equal (fun m => m !! "awaiting_log_confirmation")) in Hempty.
    + rewrite (route_declined _ _ _ _ Hp Hno). cbn.
      split; [constructor|]. split; [lia|done].
  - assert (Hp : pendingStep
                   {| conversation_context :=
                        <["awaiting_user_name" := PBool true]>
                          (<["awaiting_log_confirmation" := PBool false]> ∅);
                      cached_organizations := cache |}
                 = AWAITING_NAME)
      by (apply pending_name; cbn; by autorewrite with flags).
    rewrite (route_name _ _ _ _ Hp). cbn. rewrite named_context.
    split; [constructor|]. split; [lia|].
    intros _. apply Hne. intros Hempty.
    by apply (f_equal (fun m => m !! "awaiting_user_name")) in Hempty.
  - assert (Hp : pendingStep
                   {| conversation_context :=
                        <["awaiting_user_phone" := PBool true]>
                          (<["awaiting_user_name" := PBool false]>
                             (<["user_name" := PStr name]>
                                (<["awaiting_log_confirmation" := PBool false]> ∅)));
                      cached_organizations := cache |}
                 = AWAITING_PHONE)
      by (apply pending_phone; cbn; by autorewrite with flags).
    rewrite (route_phone _ _ _ _ Hp). unfold answer_phone.
    destruct (log_donation_request _ _ _ _ _). cbn.
    split; [constructor|]. split; [lia|done].
Qed.

Lemma conversation_shape self sheet :
  reachable self sheet ->
  flow_context (conversation_context self)
  /\ length (cached_organizations self) <= 5
  /\ (conversation_context self ≠ ∅ -> cached_organizations self ≠ []).
Proof.
  induction 1 as [sheet|self sheet E message _ IH].
  - cbn. split; [constructor|]. split; [lia|done].
  - by apply conversation_shape_step.
Qed.

(** Where a ledger call of a turn comes from. *)
Lemma ledger_event_origin E message self sheet user_name user_phone orgs at_call :
  Invoked_log_donation_request user_name user_phone orgs at_call
    ∈ trace (process_message E message self sheet) ->
  pendingStep self = AWAITING_PHONE
  /\ user_name = get_or_none (conversation_context self) "user_name"
  /\ user_phone = PStr message
  /\ orgs = cached_organizations self.
Proof.
  intros Hin. destruct (pendingStep self) eqn:Hp.
  - destruct (search_intent (Text.strip (Text.lower message))) eqn:Hkw.
    + rewrite (route_search _ _ _ _ Hp Hkw) in Hin.
      search_cases E; cbn in Hin; decompose_list_elem_of; simplify_eq/=.
    + rewrite (route_help _ _ _ _ Hp Hkw) in Hin. by apply elem_of_nil in Hin.
  - destruct (decide (Text.strip (Text.lower message) = "yes")) as [Hyes|Hno].
    + rewrite (route_confirmed _ _ _ _ Hp Hyes) in Hin. by apply elem_of_nil in Hin.
    + rewrite (route_declined _ _ _ _ Hp Hno) in Hin. by apply elem_of_nil in Hin.
  - rewrite (route_name _ _ _ _ Hp) in Hin. by apply elem_of_nil in Hin.
  - rewrite (route_phone _ _ _ _ Hp) in Hin. unfold answer_phone in Hin.
    rewrite answer_phone_name, answer_phone_phone in Hin.
    destruct (log_donation_request _ _ _ _ _). cbn in Hin.
    decompose_list_elem_of; by simplify_eq/=.
Qed.

(** X11: in a conversation the context is always one of four dicts: empty;
    the confirmation flag alone, on; the confirmation flag off and the name
    flag on; or both off, the phone flag on and a name stored. *)
Theorem conversation_contexts self sheet :
  reachable self sheet -> flow_context (conversation_context self).
Proof. by intros (H & _)%conversation_shape. Qed.

Lemma conversation_contexts_witness :
  flow_context
    (conversation_context
       (after (process_message Samples.online "Where can I donate in Delhi"
                 init []))).
Proof.
  exact (conversation_contexts _ _
           (reach_step init [] Samples.online "Where can I donate in Delhi"
              (reach_init []))).
Defined.

(** X12: in a conversation the cache never holds more than five
    organizations, and it holds at least one whenever a step is pending. *)
Theorem conversation_cache self sheet :
  reachable self sheet ->
  length (cached_organizations self) <= 5
  /\ (pendingStep self ≠ NONE -> cached_organizations self ≠ []).
Proof.
  intros (Hctx & Hlen & Hne)%conversation_shape. split; [done|].
  intros Hp. by apply Hne, flow_context_pending.
Qed.

Lemma conversation_cache_witness :
  length
    (cached_organizations
       (after (process_message Samples.online "Where can I donate in Delhi"
                 init [])))
  <= 5.
Proof.
  exact (proj1 (conversation_cache _ _
                  (reach_step init [] Samples.online
                     "Where can I donate in Delhi" (reach_init [])))).
Defined.

(** X13: every ledger call made in a conversation carries a name that is a
    string (the answer given to the name question), the message of the turn
    as phone, and between one and five organizations. *)
Theorem conversation_ledger_calls self sheet E message user_name user_phone
    orgs at_call :
  reachable self sheet ->
  Invoked_log_donation_request user_name user_phone orgs at_call
    ∈ trace (process_message E message self sheet) ->
  (exists name, user_name = PStr name)
  /\ user_phone = PStr message
  /\ 1 <= length orgs <= 5.
Proof.
  intros (Hctx & Hlen & Hne)%conversation_shape
         (Hp & -> & -> & ->)%ledger_event_origin.
  assert (Hfull : cached_organizations self ≠ [])
    by (apply Hne, flow_context_pending; [done|congruence]).
  split; [|split; [done|]].
  - apply pending_phone in Hp as [_ Hph].
    destruct Hctx as [| | |name]; cbn in Hph;
      autorewrite with flags in Hph; try done.
    exists name. unfold get_or_none.
    rewrite !lookup_insert_ne by done. by rewrite lookup_insert_eq.
  - destruct (cached_organizations self); [done|]. cbn in *. lia.
Qed.

Lemma conversation_ledger_calls_witness :
  1 <= length [Samples.org1; Samples.org2] <= 5.
Proof.
  pose (t1 := process_message Samples.online "Where can I donate in Delhi" init []).
  pose (t2 := process_message Samples.online "yes" (after t1) (sheet_after t1)).
  pose (t3 := process_message Samples.online "Asha" (after t2) (sheet_after t2)).
  assert (Hr : reachable (after t3) (sheet_after t3))
    by (repeat apply reach_step; apply reach_init).
  refine (proj2 (proj2
    (conversation_ledger_calls (after t3) (sheet_after t3) Samples.online
       "555-0100" (PStr "Asha") (PStr "555-0100") [Samples.org1; Samples.org2]
       (set_context
          (<["awaiting_user_phone" := PBool false]>
             (<["user_phone" := PStr "555-0100"]>
                (conversation_context Samples.named)))
          Samples.named)
       Hr _))).
  vm_compute. repeat constructor.
Defined.

(** ** The sheet over a turn and over a session *)

Lemma log_sheet_grows E user_name user_phone organizations sheet :
  exists added,
    (log_donation_request E user_name user_phone organizations sheet).2
    = sheet ++ added.
Proof.
  unfold log_donation_request.
  destruct (gspread E); cbn [negb]; [|exists []; by rewrite app_nil_r].
  destruct (environ_get E "GOOGLE_SHEET_ID") as [sid|];
    [|exists []; by rewrite app_nil_r].
  assert (Hrun : exists added r,
            log_attempt E sid user_name user_phone organizations sheet
            = (sheet ++ added, r)).
  { unfold log_attempt, mbind, sheetM_bind, lift, get_all_values, append_row,
      append_rows, mret, sheetM_ret.
    repeat case_match; simplify_eq/=;
      first [ by (exists []; eexists; rewrite app_nil_r)
            | by (eexists; eexists; rewrite <-?app_assoc) ]. }
  destruct Hrun as (added & r & ->). exists added.
  destruct r as [r|e]; [done|]. by destruct e.
Qed.

Lemma turn_sheet_grows E message self sheet :
  exists added, sheet_after (process_message E message self sheet) = sheet ++ added.
Proof.
  destruct (pendingStep self) eqn:Hp.
  - exists []. rewrite app_nil_r.
    destruct (search_intent (Text.strip (Text.lower message))) eqn:Hkw.
    + rewrite (route_search _ _ _ _ Hp Hkw). by search_cases E.
    + by rewrite (route_help _ _ _ _ Hp Hkw).
  - exists []. rewrite app_nil_r.
    destruct (decide (Text.strip (Text.lower message) = "yes")) as [Hyes|Hno].
    + by rewrite (route_confirmed _ _ _ _ Hp Hyes).
    + by rewrite (route_declined _ _ _ _ Hp Hno).
  - exists []. rewrite app_nil_r. by rewrite (route_name _ _ _ _ Hp).
  - rewrite (route_phone _ _ _ _ Hp).
    destruct (answer_phone_turn E message self sheet) as (_ & _ & -> & _).
    apply log_sheet_grows.
Qed.

(** X14: only the turn that answers the phone question can write to the
    sheet: every other turn leaves it as it was. *)
Theorem turn_sheet_frame E message self sheet :
  pendingStep self ≠ AWAITING_PHONE ->
  sheet_after (process_message E message self sheet) = sheet.
Proof.
  intros Hnot. destruct (pendingStep self) eqn:Hp; [| | |done].
  - destruct (search_intent (Text.strip (Text.lower message))) eqn:Hkw.
    + rewrite (route_search _ _ _ _ Hp Hkw). by search_cases E.
    + by rewrite (route_help _ _ _ _ Hp Hkw).
  - destruct (decide (Text.strip (Text.lower message) = "yes")) as [Hyes|Hno].
    + by rewrite (route_confirmed _ _ _ _ Hp Hyes).
    + by rewrite (route_declined _ _ _ _ Hp Hno).
  - by rewrite (route_name _ _ _ _ Hp).
Qed.

Lemma turn_sheet_frame_witness :
  sheet_after
    (process_message Samples.online "Where can I donate in Delhi"
       Samples.rested [header_row])
  = [header_row].
Proof.
  apply (turn_sheet_frame Samples.online "Where can I donate in Delhi"
           Samples.rested [header_row]).
  vm_compute. discriminate.
Defined.

(** ** The chat loop *)

Lemma chat_loop_exit E typed rest self sheet :
  Text.lower (Text.strip typed) ∈ exit_words ->
  chat_loop ((E, Line typed) :: rest) self sheet
  = {| final := self; final_sheet := sheet;
       stdout := prompt +:+ println (nl +:+ "🙏 Thank you! Goodbye!");
       routed := []; ended := true |}.
Proof. intros Hexit. cbn [chat_loop]. by rewrite bool_decide_eq_true_2. Qed.

Lemma chat_loop_turn E typed rest self sheet :
  Text.lower (Text.strip typed) ∉ exit_words ->
  let t := process_message E (Text.strip typed) self sheet in
  let self' :=
    match reply t with
    | Ok _ => after t
    | Raise _ => set_context ∅ (after t)
    end in
  let s := chat_loop rest self' (sheet_after t) in
  final (chat_loop ((E, Line typed) :: rest) self sheet) = final s
  /\ final_sheet (chat_loop ((E, Line typed) :: rest) self sheet) = final_sheet s
  /\ routed (chat_loop ((E, Line typed) :: rest) self sheet)
     = Text.strip typed :: routed s
  /\ ended (chat_loop ((E, Line typed) :: rest) self sheet) = ended s.
Proof.
  intros Hgo. cbn [chat_loop]. by rewrite bool_decide_eq_false_2.
Qed.


(** X15: an exit word ("quit", "exit" or "bye", in any case, with white
    space around it) ends the session in whatever state the conversation is:
    it is not routed, the chatbot and the sheet stay as they are, and nothing
    typed after it is read. *)
Theorem exit_word_ends_session E typed pre post self sheet :
  Text.lower (Text.strip typed) ∈ exit_words ->
  chat_loop (pre ++ (E, Line typed) :: post) self sheet
  = chat_loop (pre ++ [(E, Line typed)]) self sheet
  /\ (let s := chat_loop ((E, Line typed) :: post) self sheet in
      final s = self /\ final_sheet s = sheet /\ routed s = []
      /\ ended s = true).
Proof.
  intros Hexit. split; [|by rewrite (chat_loop_exit _ _ _ _ _ Hexit)].
  revert self sheet. induction pre as [|[E' op] pre IH]; intros self sheet.
  - cbn [app]. by rewrite !(chat_loop_exit _ _ _ _ _ Hexit).
  - cbn [app chat_loop]. destruct op as [typed'| |]; [|done|].
    + case_bool_decide; [done|]. cbv zeta. by rewrite !IH.
    + cbv zeta. by rewrite !IH.
Qed.

Lemma exit_word_ends_session_witness :
  let s := chat_loop [(Samples.online, Line " Quit "); (Samples.online, Line "Asha")]
             Samples.asked [] in
  final s = Samples.asked /\ final_sheet s = [] /\ routed s = []
  /\ ended s = true.
Proof.
  apply (exit_word_ends_session Samples.online " Quit " []
           [(Samples.online, Line "Asha")] Samples.asked []).
  vm_compute. repeat constructor.
Defined.



(** X17: every message that the loop hands to the router has no white space
    at either end and is not an exit word; on such a message the router's own
    trimming changes nothing. *)
Theorem chat_routes_trimmed inputs self sheet :
  Forall (fun message =>
            trimmed message = true
            /\ Text.strip message = message
            /\ (Text.lower message ∉ exit_words)
            /\ Text.strip (Text.lower message) = Text.lower message)
         (routed (chat_loop inputs self sheet)).
Proof.
  revert self sheet. induction inputs as [|[E op] inputs IH]; intros self sheet.
  - constructor.
  - destruct op as [typed| |]; [|constructor|apply IH].
    destruct (decide (Text.lower (Text.strip typed) ∈ exit_words)) as [Hexit|Hgo].
    + rewrite (chat_loop_exit _ _ _ _ _ Hexit). constructor.
    + destruct (chat_loop_turn E typed inputs self sheet Hgo) as (_ & _ & -> & _).
      constructor; [|apply IH].
      split; [apply strip_trimmed|]. split; [apply strip_idem|].
      split; [done|]. by rewrite strip_lower, strip_idem.
Qed.

(** X18: over a session the sheet only grows: what was on it at the start
    is still there, in place, at every prompt. *)
Theorem chat_sheet_grows inputs self sheet :
  exists added, final_sheet (chat_loop inputs self sheet) = sheet ++ added.
Proof.
  revert self sheet. induction inputs as [|[E op] inputs IH]; intros self sheet.
  - exists []. by rewrite app_nil_r.
  - destruct op as [typed| |]; [|exists []; by rewrite app_nil_r|apply IH].
    destruct (decide (Text.lower (Text.strip typed) ∈ exit_words)) as [Hexit|Hgo].
    + rewrite (chat_loop_exit _ _ _ _ _ Hexit). exists []. by rewrite app_nil_r.
    + destruct (chat_loop_turn E typed inputs self sheet Hgo) as (_ & -> & _).
      destruct (turn_sheet_grows E (Text.strip typed) self sheet) as [added1 ->].
      match goal with
      | |- context [chat_loop inputs ?self' (sheet ++ added1)] =>
          destruct (IH self' (sheet ++ added1)) as [added2 ->]
      end.
      exists (added1 ++ added2). by rewrite app_assoc.
Qed.

(** ** The warnings of [main] *)

Lemma warns_api_key E keyfile_exists :
  warn_api_key ∈ startup_warnings E keyfile_exists
  <-> environ_get E "GOOGLE_API_KEY" = None.
Proof.
  unfold startup_warnings. rewrite !elem_of_app.
  destruct (environ_get E "GOOGLE_API_KEY"),
           (environ_get E "GOOGLE_SHEET_ID"), keyfile_exists;
    rewrite ?list_elem_of_singleton, ?elem_of_nil;
    split; intros; destruct_or?; try done; auto.
Qed.

Lemma warns_sheet_id E keyfile_exists :
  warn_sheet_id ∈ startup_warnings E keyfile_exists
  <-> environ_get E "GOOGLE_SHEET_ID" = None.
Proof.
  unfold startup_warnings. rewrite !elem_of_app.
  destruct (environ_get E "GOOGLE_API_KEY"),
           (environ_get E "GOOGLE_SHEET_ID"), keyfile_exists;
    rewrite ?list_elem_of_singleton, ?elem_of_nil;
    split; intros; destruct_or?; try done; auto.
Qed.

Lemma lookup_key_error E location :
  find_recipients E location
  = Ok {| Lookup.recipients := None;
          Lookup.error := Some "Google API key not found.";
          Lookup.api_error := None; Lookup.message := None |}
  <-> environ_get E "GOOGLE_API_KEY" = None
      \/ (exists key gmaps,
            environ_get E "GOOGLE_API_KEY" = Some key
            /\ Client E key = Ok gmaps
            /\ geocode gmaps location = Ok []
            /\ "Could not find coordinates for '" +:+ location +:+ "'"
               = "Google API key not found.").
Proof.
  unfold find_recipients, find_with.
  destruct (environ_get E "GOOGLE_API_KEY") as [key|]; [|by split; auto].
  unfold mbind, result_bind, mret, result_ret. split.
  - intros H. right. exists key.
    destruct (Client E key) as [gmaps|e0]; [|done]. exists gmaps.
    split; [done|]. split; [done|].
    destruct (geocode _ location) as [[|lat_lng hits]|e]; cbn in H;
      [by simplify_eq| |done].
    destruct (places_nearby _ lat_lng _ _) as [places|e]; [|done].
    by destruct (detailed_recipients _ _) as [[|org orgs]|e].
  - intros [?|(key' & gmaps & [= <-] & -> & -> & ->)]; done.
Qed.

(** X19: the startup warnings of [main] tell what will fail.  The key
    warning is printed exactly when every search is answered with the
    "Google API key not found." error; and, gspread being there, the sheet-id
    warning is printed exactly when every logging call is answered with the
    "GOOGLE_SHEET_ID environment variable not set." error, the sheet
    untouched. *)
Theorem startup_warnings_predict E keyfile_exists :
  (warn_api_key ∈ startup_warnings E keyfile_exists
   <-> forall location,
         find_recipients E location
         = Ok {| Lookup.recipients := None;
                 Lookup.error := Some "Google API key not found.";
                 Lookup.api_error := None; Lookup.message := None |})
  /\ (gspread E = true ->
      (warn_sheet_id ∈ startup_warnings E keyfile_exists
       <-> forall user_name user_phone organizations sheet,
             log_donation_request E user_name user_phone organizations sheet
             = (ledger_error "GOOGLE_SHEET_ID environment variable not set.",
                sheet))).
Proof.
  split.
  - rewrite warns_api_key. split.
    + intros Hnone location. apply lookup_key_error. by left.
    + intros Hall. specialize (Hall EmptyString).
      apply lookup_key_error in Hall as [?|(key & gmaps & _ & _ & _ & Hsame)];
        [done|].
      discriminate Hsame.
  - intros Hlib. rewrite warns_sheet_id. split.
    + intros Hnone user_name user_phone organizations sheet.
      unfold log_donation_request. by rewrite Hlib, Hnone.
    + intros Hall. specialize (Hall PNone PNone [] []).
      destruct (log_reply_cases E PNone PNone [] []) as [Hok|[text Herr]].
      * rewrite Hall in Hok. discriminate Hok.
      * unfold log_donation_request in Hall. rewrite Hlib in Hall.
        cbn [negb] in Hall.
        destruct (environ_get E "GOOGLE_SHEET_ID") as [sid|]; [|done].
        destruct (log_attempt E sid PNone PNone [] []) as [sheet' [r|e]] eqn:Hrun.
        -- apply log_attempt_returns in Hrun as ->. discriminate Hall.
        -- destruct e; vm_compute in Hall; discriminate Hall.
Qed.

Lemma startup_warnings_predict_witness :
  warn_sheet_id ∈ startup_warnings Samples.unconfigured true.
Proof.
  apply (proj2 (startup_warnings_predict Samples.unconfigured true) eq_refl).
  intros user_name user_phone organizations sheet. reflexivity.
Defined.
